(** * reactome2py.utils: a shallow embedding and its properties

    The module [reactome2py/utils.py] is a set of independent fetchers: each
    builds a URL, issues one HTTP request through [requests], checks the
    status code and reshapes the body.  The embedding keeps that shape:

    - Python [str] values are lists of characters ([str]); the characters
      are the code points below 256, and [isspace] and [splitlines] follow
      Python on that range;
    - the remote side (HTTP transport, tar and zip readers, UTF-8 decoder,
      JSON parser) is a record of capabilities, [world];
    - a call is a computation in [M]: it leaves a trace of [event]s (requests
      sent, lines printed) and either returns a value or raises an [exn];
    - a local variable that an [except] branch may leave unassigned is an
      [option], read through [local]. *)

From Stdlib Require Import ZArith Ascii String.
From Stdlib.Strings Require Import Byte.
From stdpp Require Import base list strings gmap sets pretty.

Open Scope Z_scope.
Open Scope list_scope.

(** ** Python strings *)

Abbreviation str := (list ascii).
Abbreviation bytes := (list byte).

(** A literal of the source. *)
Definition py (s : string) : str := list_ascii_of_string s.

Definition chr_eqb (a b : ascii) : bool := Ascii.eqb a b.

(** [s.startswith(p)] *)
Fixpoint startswith (p s : str) : bool :=
  match p, s with
  | [], _ => true
  | _ :: _, [] => false
  | a :: p', b :: s' => chr_eqb a b && startswith p' s'
  end.

(** [sub in s] *)
Fixpoint contains (sub s : str) : bool :=
  startswith sub s ||
  match s with
  | [] => false
  | _ :: s' => contains sub s'
  end.

(** [s.find(sub)], with [None] for Python's [-1]. *)
Fixpoint find (sub s : str) : option nat :=
  if startswith sub s then Some 0%nat
  else match s with
       | [] => None
       | _ :: s' => S <$> find sub s'
       end.

(** The scan of [s.replace(old, new)] for a non-empty [old]: occurrences are
    taken leftmost first and do not overlap.  [skip] counts the characters
    of the occurrence just matched that are still to be passed over. *)
Fixpoint replace_scan (old new : str) (skip : nat) (s : str) : str :=
  match s with
  | [] => []
  | c :: s' =>
      match skip with
      | S k => replace_scan old new k s'
      | O =>
          if startswith old s
          then new ++ replace_scan old new (length old - 1) s'
          else c :: replace_scan old new 0 s'
      end
  end.

(** [s.replace(old, new)].  With an empty [old] Python puts [new] before
    every character and at the end. *)
Definition replace (s old new : str) : str :=
  match old with
  | [] => new ++ flat_map (fun c => c :: new) s
  | _ :: _ => replace_scan old new 0 s
  end.

(** The scan of [s.split(sep)] for a non-empty [sep]; [cur] is the field
    being read, in reverse. *)
Fixpoint split_scan (sep : str) (skip : nat) (cur : str) (s : str) : list str :=
  match s with
  | [] => [rev cur]
  | c :: s' =>
      match skip with
      | S k => split_scan sep k cur s'
      | O =>
          if startswith sep s
          then rev cur :: split_scan sep (length sep - 1) [] s'
          else split_scan sep 0 (c :: cur) s'
      end
  end.

(** Python's [str.isspace] on one character, for code points below 256:
    TAB, LF, VT, FF, CR, the separators 0x1c-0x1f, SPACE, NEL and NBSP. *)
Definition isspace (c : ascii) : bool :=
  let n := N_of_ascii c in
  ((9 <=? n) && (n <=? 13) || (28 <=? n) && (n <=? 32)
   || (n =? 133) || (n =? 160))%N.

Fixpoint lstrip (s : str) : str :=
  match s with
  | [] => []
  | c :: s' => if isspace c then lstrip s' else s
  end.

Definition rstrip (s : str) : str := rev (lstrip (rev s)).

(** [s.strip()] *)
Definition strip (s : str) : str := rstrip (lstrip s).

(** The line boundaries of [str.splitlines], CR LF apart: LF, VT, FF, CR,
    0x1c, 0x1d, 0x1e and NEL. *)
Definition is_linebreak (c : ascii) : bool :=
  let n := N_of_ascii c in
  ((10 <=? n) && (n <=? 13) || (28 <=? n) && (n <=? 30) || (n =? 133))%N.

Definition CR : ascii := ascii_of_N 13.
Definition LF : ascii := ascii_of_N 10.

Fixpoint splitlines_scan (cur : str) (s : str) : list str :=
  match s with
  | [] => match cur with [] => [] | _ :: _ => [rev cur] end
  | c :: s' =>
      if is_linebreak c then
        rev cur ::
          match s' with
          | c' :: s'' =>
              if chr_eqb c CR && chr_eqb c' LF
              then splitlines_scan [] s''
              else splitlines_scan [] s'
          | [] => splitlines_scan [] s'
          end
      else splitlines_scan (c :: cur) s'
  end.

(** [s.splitlines()] *)
Definition splitlines (s : str) : list str := splitlines_scan [] s.

(** [l[lo:hi]] for [0 <= lo], [0 <= hi]. *)
Definition slice {A} (l : list A) (lo hi : nat) : list A :=
  take (hi - lo) (drop lo l).

(** [sep.join(l)] *)
Fixpoint join (sep : str) (l : list str) : str :=
  match l with
  | [] => []
  | [x] => x
  | x :: l' => x ++ sep ++ join sep l'
  end.

Definition TAB : ascii := ascii_of_N 9.

(** ** Exceptions, results and the trace of a call *)

Inductive exn :=
  | UnboundLocalError (name : string)  (* a NameError: local read before assignment *)
  | IndexError
  | TypeError
  | ValueError
  | LibraryError (what : str).         (* raised inside requests, tarfile, zipfile, codecs or json *)

Inductive result (A : Type) :=
  | Return (a : A)
  | Raise (e : exn).
Arguments Return {A} a.
Arguments Raise {A} e.

Definition rbind {A B} (r : result A) (k : A -> result B) : result B :=
  match r with
  | Return a => k a
  | Raise e => Raise e
  end.

Notation "x <~ r ;; k" := (rbind r (fun x => k))
  (at level 100, r at next level, right associativity).

Fixpoint rmap {A B} (f : A -> result B) (l : list A) : result (list B) :=
  match l with
  | [] => Return []
  | a :: l' => b <~ f a ;; bs <~ rmap f l' ;; Return (b :: bs)
  end.

Fixpoint rfold {A S} (f : S -> A -> result S) (s : S) (l : list A) : result S :=
  match l with
  | [] => Return s
  | a :: l' => s' <~ f s a ;; rfold f s' l'
  end.

(** [l[i]] *)
Definition index {A} (l : list A) (i : nat) : result A :=
  match l !! i with
  | Some a => Return a
  | None => Raise IndexError
  end.

(** [s.split(sep)] *)
Definition split (s sep : str) : result (list str) :=
  match sep with
  | [] => Raise ValueError
  | _ :: _ => Return (split_scan sep 0 [] s)
  end.

Inductive method := GET | POST.

Record request := {
  req_method : method;
  req_url : str;
  req_headers : list (str * str);
  req_data : option str;
}.

Record response := {
  status_code : Z;
  text : str;
  content : bytes;
}.

(** What [requests.get] / [requests.post] can do: hand back a response,
    raise [ConnectionError], or raise another of its exceptions. *)
Inductive fetch_result :=
  | Fetched (r : response)
  | ConnectionError (e : str)
  | RequestException (e : str).

(** Parsed JSON; its schema belongs to the remote service. *)
#[warnings="-register-all"]
Inductive json :=
  | JNull
  | JBool (b : bool)
  | JNumber (literal : str)
  | JString (s : str)
  | JArray (items : list json)
  | JObject (members : list (str * json)).

(** The remote side and the library readers the module relies on. *)
Record world := {
  requests_request : request -> fetch_result;
  (* tarfile.open(fileobj=io.BytesIO(b)).getnames() *)
  tarfile_getnames : bytes -> result (list str);
  (* the readlines() of every member of zipfile.ZipFile(io.BytesIO(b)), in archive order *)
  zipfile_readlines : bytes -> result (list (list bytes));
  (* b.decode('utf8') *)
  decode_utf8 : bytes -> result str;
  (* response.json() *)
  response_json : response -> result json;
}.

Inductive event :=
  | Sent (r : request)
  | Printed (line : str).

(** A call: the events it produced and how it ended. *)
Definition M (A : Type) : Type := list event * result A.

Definition ret {A} (a : A) : M A := ([], Return a).
Definition raise {A} (e : exn) : M A := ([], Raise e).
Definition emit (ev : event) : M unit := ([ev], Return tt).
Definition print (line : str) : M unit := emit (Printed line).
Definition lift {A} (r : result A) : M A := ([], r).

Definition bind {A B} (m : M A) (k : A -> M B) : M B :=
  match m with
  | (t, Return a) => let '(t', r) := k a in (t ++ t', r)
  | (t, Raise e) => (t, Raise e)
  end.

Notation "x <- m ;; k" := (bind m (fun x => k))
  (at level 100, m at next level, right associativity).
Notation "m ;; k" := (bind m (fun _ => k))
  (at level 100, right associativity).

Definition trace {A} (m : M A) : list event := fst m.
Definition outcome {A} (m : M A) : result A := snd m.

(** Reading a local variable that may never have been assigned. *)
Definition local {A} (name : string) (v : option A) : M A :=
  match v with
  | Some a => ret a
  | None => raise (UnboundLocalError name)
  end.

(** [try: response = requests.<method>(...)  except ConnectionError as e: print(e)];
    the value is the binding of [response] afterwards. *)
Definition try_request (w : world) (req : request) : M (option response) :=
  emit (Sent req) ;;
  match requests_request w req with
  | Fetched r => ret (Some r)
  | ConnectionError e => print e ;; ret None
  | RequestException e => raise (LibraryError e)
  end.

(** ['%s' % n] for an integer. *)
Definition str_of_int (n : Z) : str := py (pretty n).

(** [print('Status code returned a value of %s' % response.status_code)] *)
Definition print_status (r : response) : M unit :=
  print (py "Status code returned a value of " ++ str_of_int (status_code r)).

Definition get (url : str) (headers : list (str * str)) : request :=
  {| req_method := GET; req_url := url; req_headers := headers; req_data := None |}.

Definition post (url : str) (headers : list (str * str)) (data : option str) : request :=
  {| req_method := POST; req_url := url; req_headers := headers; req_data := data |}.

(** ** The fetchers of [reactome2py/utils.py] *)

Definition ehld_stids (w : world) : M (option (list str)) :=
  let url := py "https://reactome.org/download/current/ehld/svgsummary.txt" in
  response <- try_request w (get url []) ;;
  r <- local "response" response ;;
  if status_code r =? 200 then
    let content_list := splitlines (text r) in
    let st_ids := filter (fun stId => contains (py "R-") stId = true) content_list in
    ret (Some st_ids)
  else
    print_status r ;; ret None.

(** [set(l)]; [None] is not iterable. *)
Definition set_of (l : option (list str)) : result (gset str) :=
  match l with
  | Some l => Return (list_to_set l)
  | None => Raise TypeError
  end.

(** [list(s)] lists every member once; Python fixes no order, the model
    takes the order of [elements]. *)
Definition list_of (s : gset str) : list str := elements s.

Definition sbgn_stids (w : world) : M (option (list str)) :=
  let url := py "https://reactome.org/download/current/homo_sapiens.sbgn.tar.gz" in
  response <- try_request w (get url []) ;;
  r <- local "response" response ;;
  if status_code r =? 200 then
    file_names <- lift (tarfile_getnames w (content r)) ;;
    ehlds <- ehld_stids w ;;
    let sbgns := map (fun f => replace f (py ".sbgn") []) file_names in
    sbgn_only <- lift (a <~ set_of (Some sbgns) ;; b <~ set_of ehlds ;;
                       Return (list_of (a ∖ b))) ;;
    ret (Some sbgn_only)
  else
    print_status r ;; ret None.

Definition _yield_zip (w : world) (r : response) : result (list (list bytes)) :=
  zipfile_readlines w (content r).

Definition _read_ziplines (w : world) (r : response) : result (list (list str)) :=
  members <~ _yield_zip w r ;;
  first <~ index members 0 ;;
  decoded <~ rmap (decode_utf8 w) first ;;
  rmap (fun c => split c [TAB]) decoded.

Record mapping := {
  name : str;
  stId : str;
  genes : list str;
}.

(** One turn of [for i, e in enumerate(gm)]: the row [gm[i]] is replaced by
    its stripped fields, then read back three times. *)
Definition gene_mappings_step (st : list (list str) * list mapping) (i : nat)
  : result (list (list str) * list mapping) :=
  let '(gm, relations) := st in
  row <~ index gm i ;;
  let gm := <[i := map strip row]> gm in
  r0 <~ index gm i ;; f0 <~ index r0 0 ;;
  r1 <~ index gm i ;; f1 <~ index r1 1 ;;
  r2 <~ index gm i ;; r3 <~ index gm i ;;
  let d := {| name := f0; stId := f1; genes := slice r2 2 (length r3) |} in
  Return (gm, relations ++ [d]).

Definition gene_mappings (w : world) : M (option (list mapping)) :=
  let url := py "https://reactome.org/download/current/ReactomePathways.gmt.zip" in
  response <- try_request w (get url []) ;;
  r <- local "response" response ;;
  if status_code r =? 200 then
    gm <- lift (_read_ziplines w r) ;;
    st <- lift (rfold gene_mappings_step (gm, []) (seq 0 (length gm))) ;;
    ret (Some (snd st))
  else
    print_status r ;; ret None.

Definition accept_json : list (str * str) := [(py "accept", py "application/json")].

Definition default_pattern : str := py "R-HSA-".

(** [if pattern in stId: stId = stId.replace(pattern, "")] *)
Definition strip_pattern (stId pattern : str) : str :=
  if contains pattern stId then replace stId pattern [] else stId.

(** The tail shared by the JSON fetchers:
    [if response.status_code == 200: return response.json() else: print(...)]. *)
Definition json_or_status (w : world) (response : option response) : M (option json) :=
  r <- local "response" response ;;
  if status_code r =? 200 then
    j <- lift (response_json w r) ;; ret (Some j)
  else
    print_status r ;; ret None.

Definition pathway_fi_base : str :=
  py "http://cpws.reactome.org/caBigR3WebApp2018/FIService/network/convertPathwayToFIs/".
Definition pathway_boolean_network_base : str :=
  py "http://cpws.reactome.org/caBigR3WebApp2018/FIService/network/convertPathwayToBooleanNetwork/".
Definition pathway_factor_graph_base : str :=
  py "http://cpws.reactome.org/caBigR3WebApp2018/FIService/network/convertPathwayToFactorGraph/".

Definition pathway_fi (w : world) (stId pattern : str) : M (option json) :=
  let headers := accept_json in
  let stId := strip_pattern stId pattern in
  let url := pathway_fi_base ++ stId in
  response <- try_request w (get url headers) ;;
  json_or_status w response.

Definition pathway_boolean_network (w : world) (stId pattern : str) : M (option json) :=
  let headers := accept_json in
  let stId := strip_pattern stId pattern in
  let url := pathway_boolean_network_base ++ stId in
  response <- try_request w (get url headers) ;;
  json_or_status w response.

Definition pathway_factor_graph (w : world) (stId pattern : str) : M (option json) :=
  let headers := accept_json in
  let stId := strip_pattern stId pattern in
  let url := pathway_factor_graph_base ++ stId in
  response <- try_request w (post url headers None) ;;
  json_or_status w response.

Definition drug_data_source (w : world) (source : str) : M (option json) :=
  let headers := accept_json in
  let url := py "http://cpws.reactome.org/caBigR3WebApp2018/FIService/drug/listDrugs/" ++ source in
  response <- try_request w (get url headers) ;;
  json_or_status w response.

Definition drug_target_interactions (w : world) (ids source : str) : M (option json) :=
  let headers := accept_json in
  let data := ids in
  let url := py "http://cpws.reactome.org/caBigR3WebApp2018/FIService/drug/queryDrugTargetInteractions/" ++ source in
  response <- try_request w (post url headers (Some data)) ;;
  json_or_status w response.

Definition drug_target_interaction_pe_in_diagram (w : world) (source pdId peId : str)
  : M (option json) :=
  let headers := accept_json in
  let ids := join (py "/") [pdId; peId] in
  let url := py "http://cpws.reactome.org/caBigR3WebApp2018/FIService/drug/queryInteractionsForPEInDiagram/"
             ++ source ++ py "/" ++ ids in
  response <- try_request w (get url headers) ;;
  json_or_status w response.

Definition drug_target_interaction_diagram (w : world) (source pdId : str) : M (option json) :=
  let headers := accept_json in
  let url := py "http://cpws.reactome.org/caBigR3WebApp2018/FIService/drug/queryInteractionsForDiagram/"
             ++ source ++ py "/" ++ pdId in
  response <- try_request w (get url headers) ;;
  json_or_status w response.

(** ** The public functions as one family

    Every public function issues its request first; [request_of] is that
    request and [run] the call, with the returned Python value. *)

Inductive fetcher :=
  | Ehld_stids
  | Sbgn_stids
  | Gene_mappings
  | Pathway_fi (stId pattern : str)
  | Pathway_boolean_network (stId pattern : str)
  | Pathway_factor_graph (stId pattern : str)
  | Drug_data_source (source : str)
  | Drug_target_interactions (ids source : str)
  | Drug_target_interaction_pe_in_diagram (source pdId peId : str)
  | Drug_target_interaction_diagram (source pdId : str).

(** What a public function returns.  [PyNone] is the absence of a return
    value; [PyJson JNull], the parsed JSON [null], is Python's [None] too:
    [is_None] holds of both. *)
Inductive value :=
  | PyNone
  | PyStrs (l : list str)
  | PyMappings (l : list mapping)
  | PyJson (j : json).

Definition returned {A} (inj : A -> value) (m : M (option A)) : M value :=
  v <- m ;; ret (match v with Some a => inj a | None => PyNone end).

Definition run (w : world) (f : fetcher) : M value :=
  match f with
  | Ehld_stids => returned PyStrs (ehld_stids w)
  | Sbgn_stids => returned PyStrs (sbgn_stids w)
  | Gene_mappings => returned PyMappings (gene_mappings w)
  | Pathway_fi stId pattern => returned PyJson (pathway_fi w stId pattern)
  | Pathway_boolean_network stId pattern =>
      returned PyJson (pathway_boolean_network w stId pattern)
  | Pathway_factor_graph stId pattern =>
      returned PyJson (pathway_factor_graph w stId pattern)
  | Drug_data_source source => returned PyJson (drug_data_source w source)
  | Drug_target_interactions ids source =>
      returned PyJson (drug_target_interactions w ids source)
  | Drug_target_interaction_pe_in_diagram source pdId peId =>
      returned PyJson (drug_target_interaction_pe_in_diagram w source pdId peId)
  | Drug_target_interaction_diagram source pdId =>
      returned PyJson (drug_target_interaction_diagram w source pdId)
  end.

Definition ehld_url : str := py "https://reactome.org/download/current/ehld/svgsummary.txt".
Definition sbgn_url : str := py "https://reactome.org/download/current/homo_sapiens.sbgn.tar.gz".
Definition gmt_url : str := py "https://reactome.org/download/current/ReactomePathways.gmt.zip".
Definition drug_base : str := py "http://cpws.reactome.org/caBigR3WebApp2018/FIService/drug/".

Definition request_of (f : fetcher) : request :=
  match f with
  | Ehld_stids => get ehld_url []
  | Sbgn_stids => get sbgn_url []
  | Gene_mappings => get gmt_url []
  | Pathway_fi stId pattern =>
      get (pathway_fi_base ++ strip_pattern stId pattern) accept_json
  | Pathway_boolean_network stId pattern =>
      get (pathway_boolean_network_base ++ strip_pattern stId pattern) accept_json
  | Pathway_factor_graph stId pattern =>
      post (pathway_factor_graph_base ++ strip_pattern stId pattern) accept_json None
  | Drug_data_source source =>
      get (drug_base ++ py "listDrugs/" ++ source) accept_json
  | Drug_target_interactions ids source =>
      post (drug_base ++ py "queryDrugTargetInteractions/" ++ source) accept_json (Some ids)
  | Drug_target_interaction_pe_in_diagram source pdId peId =>
      get (drug_base ++ py "queryInteractionsForPEInDiagram/" ++ source ++ py "/"
             ++ pdId ++ py "/" ++ peId) accept_json
  | Drug_target_interaction_diagram source pdId =>
      get (drug_base ++ py "queryInteractionsForDiagram/" ++ source ++ py "/" ++ pdId)
        accept_json
  end.

(** The requests among the events of a call. *)
Fixpoint requests_sent (t : list event) : list request :=
  match t with
  | [] => []
  | Sent r :: t' => r :: requests_sent t'
  | Printed _ :: t' => requests_sent t'
  end.

(** [s.endswith(suffix)] *)
Definition endswith (suffix s : str) : bool := startswith (rev suffix) (rev s).

(** A string with no white space at either end. *)
Definition trimmed (s : str) : bool :=
  match s with [] => true | c :: _ => negb (isspace c) end
  && match rev s with [] => true | c :: _ => negb (isspace c) end.

(** The fields of one decoded line, [c.split('\t')]. *)
Definition fields (line : str) : list str := split_scan [TAB] 0 [] line.

(** The record the loop of [gene_mappings] builds from one row of fields. *)
Definition record_of_row (row : list str) : result mapping :=
  let fs := map strip row in
  f0 <~ index fs 0 ;; f1 <~ index fs 1 ;;
  Return {| name := f0; stId := f1; genes := drop 2 fs |}.

(** The member names of the SBGN archive with the extension taken off,
    the [sbgns] of [sbgn_stids]. *)
Definition sbgn_names (names : list str) : list str :=
  map (fun f => replace f (py ".sbgn") []) names.

(** [decoded] are the decoded lines of the first member of the archive that
    answers the request of [gene_mappings] with status 200. *)
Definition first_member (w : world) (decoded : list str) : Prop :=
  exists r lines rest,
    requests_request w (get gmt_url []) = Fetched r /\ status_code r = 200 /\
    zipfile_readlines w (content r) = Return (lines :: rest) /\
    rmap (decode_utf8 w) lines = Return decoded.

(** The spec's wording of the prefix rule: the identifier with one leading
    occurrence of the pattern taken off. *)
Definition spec_strip_leading_once (stId pattern : str) : str :=
  if startswith pattern stId then drop (length pattern) stId else stId.

(** The spec's wording of a mapping record: name is field 0, stId field 1,
    genes the remaining fields, every field trimmed. *)
Definition spec_record (line : str) (d : mapping) : Prop :=
  exists f0 f1 gs,
    fields line = f0 :: f1 :: gs /\
    d = {| name := strip f0; stId := strip f1; genes := map strip gs |}.

Definition default_stId : str := py "R-HSA-177929".

(** ** Remote sides used in the examples *)

Definition encode_ascii (s : str) : bytes := map byte_of_ascii s.

(** A decoder for the 7-bit range, where UTF-8 and ASCII agree. *)
Definition decode_ascii (b : bytes) : result str :=
  if forallb (fun x => (Byte.to_N x <? 128)%N) b
  then Return (map ascii_of_byte b)
  else Raise (LibraryError (py "UnicodeDecodeError")).

Definition scripted (http : request -> fetch_result) (names : list str)
    (members : list (list str)) : world :=
  {| requests_request := http;
     tarfile_getnames := fun _ => Return names;
     zipfile_readlines := fun _ => Return (map (map encode_ascii) members);
     decode_utf8 := decode_ascii;
     response_json := fun _ => Return JNull |}.

Definition answer (code : Z) (body : str) : fetch_result :=
  Fetched {| status_code := code; text := body; content := [] |}.

(** No route to the host. *)
Definition offline : world :=
  scripted (fun _ => ConnectionError (py "Max retries exceeded")) [] [].

(** Every request is answered with the same status and body. *)
Definition serving (code : Z) (body : str) (names : list str)
    (members : list (list str)) : world :=
  scripted (fun _ => answer code body) names members.

(** The archive is served, the EHLD summary is not found. *)
Definition ehld_missing (names : list str) : world :=
  scripted (fun req => if decide (req_url req = ehld_url)
                       then answer 404 [] else answer 200 []) names [].

(** One line of a GMT file: tab-separated fields and a line feed. *)
Definition gmt_line (fs : list str) : str := join [TAB] fs ++ [LF].

Definition gmt_two_pathways : list str :=
  [gmt_line [py "Apoptosis"; py "R-HSA-109581"; py "BAX"; py " BCL2 "];
   gmt_line [py "Empty"; py "R-HSA-2"]].

(** The second line is blank. *)
Definition gmt_blank_line : list str :=
  [gmt_line [py "Apoptosis"; py "R-HSA-109581"; py "BAX"]; [LF]].

(** The name column of the only line is empty. *)
Definition gmt_no_name : list str := [gmt_line [[]; py "R-HSA-2"]].

Definition ehld_summary : str := join [LF] [py "stId"; py "R-HSA-1"; py "R-HSA-2"].

Definition sbgn_archive : list str :=
  [py "R-HSA-1.sbgn"; py "R-HSA-3.sbgn"; py "R-HSA-3.sbgn"].

(** The fetchers that hand back [response.json()]. *)
Definition is_json_fetcher (f : fetcher) : bool :=
  match f with
  | Ehld_stids | Sbgn_stids | Gene_mappings => false
  | _ => true
  end.

(** The lines printed among the events of a call. *)
Fixpoint printed_lines (t : list event) : list str :=
  match t with
  | [] => []
  | Sent _ :: t' => printed_lines t'
  | Printed l :: t' => l :: printed_lines t'
  end.

(** [w] with another JSON parser, tar reader or zip reader. *)
Definition with_json (w : world) (j : response -> result json) : world :=
  {| requests_request := requests_request w;
     tarfile_getnames := tarfile_getnames w;
     zipfile_readlines := zipfile_readlines w;
     decode_utf8 := decode_utf8 w;
     response_json := j |}.

Definition with_tar (w : world) (t : bytes -> result (list str)) : world :=
  {| requests_request := requests_request w;
     tarfile_getnames := t;
     zipfile_readlines := zipfile_readlines w;
     decode_utf8 := decode_utf8 w;
     response_json := response_json w |}.

Definition with_zip (w : world) (z : bytes -> result (list (list bytes))) : world :=
  {| requests_request := requests_request w;
     tarfile_getnames := tarfile_getnames w;
     zipfile_readlines := z;
     decode_utf8 := decode_utf8 w;
     response_json := response_json w |}.

(** Every request runs into a redirect loop. *)
Definition redirecting : world :=
  scripted (fun _ => RequestException (py "Exceeded 30 redirects.")) [] [].

(** The archive is served, the host of the EHLD summary is unreachable. *)
Definition ehld_unreachable (names : list str) : world :=
  scripted (fun req => if decide (req_url req = ehld_url)
                       then ConnectionError (py "Max retries exceeded")
                       else answer 200 []) names [].

(** A GMT line with a byte outside the 7-bit range. *)
Definition gmt_not_ascii : list str :=
  [gmt_line [py "Apoptosis"; py "R-HSA-109581"]; [ascii_of_N 200; TAB; LF]].

(** A text file: every line followed by the line end [nl]. *)
Definition unlines (nl : str) (lines : list str) : str :=
  flat_map (fun l => l ++ nl) lines.

(** The GMT line that carries a record. *)
Definition line_of_mapping (d : mapping) : str :=
  gmt_line (name d :: stId d :: genes d).

(** A field that a GMT line carries as it is: no tab inside, no white space
    at either end. *)
Definition plain_field (f : str) : Prop := trimmed f = true /\ TAB ∉ f.

Definition plain_mapping (d : mapping) : Prop :=
  plain_field (name d) /\ plain_field (stId d) /\ Forall plain_field (genes d).

Definition DOT : ascii := ascii_of_N 46.

(** The archive member that holds the diagram of [id]. *)
Definition sbgn_file (id : str) : str := id ++ py ".sbgn".

(** The spec's wording of trimming, without [strip]: [t] is [f] with the
    white space at its two ends taken off. *)
Definition trim_of (f t : str) : Prop :=
  trimmed t = true /\
  exists pre post,
    f = pre ++ t ++ post /\
    Forall (fun c => isspace c = true) pre /\
    Forall (fun c => isspace c = true) post.


(** The value of a decimal digit. *)
Definition digit (c : ascii) : option N :=
  let n := N_of_ascii c in
  if ((48 <=? n) && (n <=? 57))%N then Some (n - 48)%N else None.

(** The number that a string of decimal digits writes, read after [acc]. *)
Fixpoint digits_value (acc : N) (s : str) : option N :=
  match s with
  | [] => Some acc
  | c :: s' =>
      match digit c with
      | Some d => digits_value (10 * acc + d) s'
      | None => None
      end
  end.

Definition MINUS : ascii := ascii_of_N 45.

(** The integer that a decimal numeral writes: digits, after an optional
    minus sign.  It reads the numeral back, independently of [str_of_int]. *)
Definition int_of_str (s : str) : option Z :=
  match s with
  | [] => None
  | c :: s' =>
      if chr_eqb c MINUS then
        match s' with
        | [] => None
        | _ :: _ => (fun n => - Z.of_N n) <$> digits_value 0 s'
        end
      else Z.of_N <$> digits_value 0 s
  end.

(** The values that are Python's [None]: the absence of a return value, and
    what [response.json()] gives for the JSON body [null]. *)
Definition is_None (v : value) : bool :=
  match v with
  | PyNone | PyJson JNull => true
  | _ => false
  end.

(** Unfolds the call [run w f] for each [f] and rewrites its request with
    what is known of the transport's answer. *)
Ltac run_fetcher f lem H :=
  destruct f; cbn [run request_of] in *;
  unfold returned, ehld_stids, sbgn_stids, gene_mappings, pathway_fi,
    pathway_boolean_network, pathway_factor_graph, drug_data_source,
    drug_target_interactions, drug_target_interaction_pe_in_diagram,
    drug_target_interaction_diagram, json_or_status;
  cbv zeta;
  match type of H with
  | requests_request ?w ?rq = _ =>
      match goal with
      | |- context [try_request w ?q] =>
          change q with rq; rewrite (lem _ _ _ H)
      end
  end.

(** * Properties *)

(** ** The string operations *)

Lemma chr_eqb_true a b : chr_eqb a b = true <-> a = b.
Proof. unfold chr_eqb. apply Ascii.eqb_eq. Qed.

Lemma chr_eqb_refl a : chr_eqb a a = true.
Proof. by apply chr_eqb_true. Qed.

Lemma startswith_app p s : startswith p (p ++ s) = true.
Proof.
  induction p as [|a p IH]; simpl; [done|].
  by rewrite chr_eqb_refl, IH.
Qed.

Lemma startswith_inv p s : startswith p s = true -> exists r, s = p ++ r.
Proof.
  revert s. induction p as [|a p IH]; intros s H.
  - by exists s.
  - destruct s as [|b s]; simpl in H; [done|].
    apply andb_true_iff in H as [Hab Hp].
    apply chr_eqb_true in Hab as ->.
    destruct (IH _ Hp) as [r ->]. by exists r.
Qed.

Lemma startswith_nil_r p : startswith p [] = true -> p = [].
Proof. by destruct p. Qed.

Lemma contains_cons_false sub c s :
  contains sub (c :: s) = false ->
  startswith sub (c :: s) = false /\ contains sub s = false.
Proof. simpl. intros H. by apply orb_false_iff in H. Qed.

Lemma contains_startswith sub s : startswith sub s = true -> contains sub s = true.
Proof. intros H. destruct s; simpl in *; by rewrite H. Qed.

Lemma contains_cons sub c s : contains sub s = true -> contains sub (c :: s) = true.
Proof. intros H. cbn [contains]. rewrite H. apply orb_true_r. Qed.

Lemma contains_nil s : contains [] s = true.
Proof. by destruct s. Qed.

Lemma find_None_contains sub s : find sub s = None <-> contains sub s = false.
Proof.
  induction s as [|c s IH]; cbn [find contains].
  - destruct (startswith sub []); simpl; split; congruence.
  - destruct (startswith sub (c :: s)); simpl; [split; congruence|].
    rewrite <- IH. destruct (find sub s); simpl; split; congruence.
Qed.

Lemma find_Some_contains sub s i : find sub s = Some i -> contains sub s = true.
Proof.
  intros H. destruct (contains sub s) eqn:E; [done|].
  apply find_None_contains in E. congruence.
Qed.

(** [find] returns the position of an occurrence, with none starting before. *)
Lemma find_Some_split sub s i :
  find sub s = Some i ->
  s = take i s ++ sub ++ drop (i + length sub) s /\
  forall j, (j < i)%nat -> startswith sub (drop j s) = false.
Proof.
  revert i. induction s as [|c s IH]; intros i; cbn [find].
  - destruct (startswith sub []) eqn:E; [|done]. intros [= <-].
    apply startswith_nil_r in E as ->. split; [done|lia].
  - destruct (startswith sub (c :: s)) eqn:E.
    + intros [= <-]. split; [|lia].
      destruct (startswith_inv _ _ E) as [r Hr]. rewrite Hr at 1.
      cbn [take app]. f_equal. rewrite Hr. cbn [Nat.add]. by rewrite drop_app_length.
    + destruct (find sub s) as [k|] eqn:Ek; simpl; [|done]. intros [= <-].
      destruct (IH k eq_refl) as [Hs Hj]. split.
      * cbn [take drop Nat.add app]. by rewrite <- Hs.
      * intros [|j] Hlt; cbn [drop]; [done|]. apply Hj. lia.
Qed.

Lemma replace_scan_skip old new pre s :
  replace_scan old new (length pre) (pre ++ s) = replace_scan old new 0 s.
Proof. induction pre as [|c pre IH]; [done|]. simpl. apply IH. Qed.

Lemma replace_scan_occurrence old new s :
  old <> [] ->
  replace_scan old new 0 (old ++ s) = new ++ replace_scan old new 0 s.
Proof.
  intros Hne. destruct old as [|a old]; [done|].
  cbn [app replace_scan]. 
  change (a :: old ++ s) with ((a :: old) ++ s). rewrite startswith_app.
  f_equal. cbn [length]. replace (S (length old) - 1)%nat with (length old) by lia.
  apply replace_scan_skip.
Qed.

Lemma replace_scan_other old new c s :
  startswith old (c :: s) = false ->
  replace_scan old new 0 (c :: s) = c :: replace_scan old new 0 s.
Proof. intros H. cbn [replace_scan]. by rewrite H. Qed.

Lemma replace_scan_absent old new s :
  contains old s = false -> replace_scan old new 0 s = s.
Proof.
  induction s as [|c s IH]; [done|]. intros H.
  apply contains_cons_false in H as [H1 H2].
  rewrite replace_scan_other by done. by rewrite IH.
Qed.

Lemma replace_absent s old new : contains old s = false -> replace s old new = s.
Proof.
  intros H. destruct old as [|a old].
  - by rewrite contains_nil in H.
  - by apply replace_scan_absent.
Qed.

(** Before the first occurrence nothing changes; the scan resumes after it. *)
Lemma replace_scan_first old new pre s :
  old <> [] ->
  (forall j, (j < length pre)%nat -> startswith old (drop j (pre ++ old ++ s)) = false) ->
  replace_scan old new 0 (pre ++ old ++ s) = pre ++ new ++ replace_scan old new 0 s.
Proof.
  intros Hne. induction pre as [|c pre IH]; intros Hj.
  - cbn [app]. by apply replace_scan_occurrence.
  - cbn [app]. rewrite replace_scan_other.
    + f_equal. apply IH. intros j Hlt. apply (Hj (S j)). simpl. lia.
    + apply (Hj 0%nat). simpl. lia.
Qed.

Lemma replace_empty_empty s : replace s [] [] = s.
Proof. unfold replace. simpl. induction s as [|c s IH]; simpl; congruence. Qed.

Lemma startswith_head old c s : startswith old (c :: s) = true -> old <> [] -> c ∈ old.
Proof.
  destruct old as [|a old]; [done|]. simpl. intros H _.
  apply andb_true_iff in H as [H _]. apply chr_eqb_true in H as ->. by left.
Qed.

Lemma startswith_head_absent old c s : old <> [] -> c ∉ old -> startswith old (c :: s) = false.
Proof.
  intros Hne Hc. destruct (startswith old (c :: s)) eqn:E; [|done].
  destruct Hc. by eapply startswith_head.
Qed.

(** Removing the occurrences of [old] keeps an adjacent pair [a b] whose
    characters are foreign to [old]. *)
Lemma replace_scan_keeps_pair old a b :
  old <> [] -> a ∉ old -> b ∉ old ->
  forall s skip,
    Forall (fun c => c ∈ old) (take skip s) ->
    contains [a; b] s = true ->
    contains [a; b] (replace_scan old [] skip s) = true.
Proof.
  intros Hne Ha Hb. induction s as [|c s IH]; intros skip Hskip Hc; [done|].
  assert (Hin : c ∈ old -> contains [a; b] s = true).
  { intros Hin. cbn [contains startswith] in Hc.
    destruct (chr_eqb a c) eqn:E.
    - apply chr_eqb_true in E as ->. by destruct Ha.
    - by rewrite andb_false_l, orb_false_l in Hc. }
  destruct skip as [|k]; cbn [replace_scan].
  - destruct (startswith old (c :: s)) eqn:E.
    + cbn [app]. apply IH.
      * destruct (startswith_inv _ _ E) as [r Hr].
        destruct old as [|o old]; [done|]. injection Hr as -> ->.
        cbn [length]. replace (S (length old) - 1)%nat with (length old) by lia.
        rewrite take_app_length. apply Forall_forall. intros x Hx. by right.
      * apply Hin. by eapply startswith_head.
    + cbn [contains startswith] in Hc. apply orb_true_iff in Hc as [Hc|Hc].
      * apply andb_true_iff in Hc as [Hac Hbs].
        apply chr_eqb_true in Hac as <-.
        destruct s as [|c' s]; [done|]. simpl in Hbs.
        apply andb_true_iff in Hbs as [Hbc _]. apply chr_eqb_true in Hbc as <-.
        rewrite replace_scan_other by by apply startswith_head_absent.
        apply contains_startswith. simpl. by rewrite !chr_eqb_refl.
      * apply contains_cons. apply IH; [by constructor|done].
  - cbn [take] in Hskip. apply Forall_cons in Hskip as [Hc0 Hrest].
    apply IH; [done|]. by apply Hin.
Qed.

Lemma strip_pattern_absent stId pattern :
  contains pattern stId = false -> strip_pattern stId pattern = stId.
Proof. unfold strip_pattern. by intros ->. Qed.

Lemma strip_pattern_scan stId pattern :
  pattern <> [] -> strip_pattern stId pattern = replace_scan pattern [] 0 stId.
Proof.
  intros Hne. unfold strip_pattern, replace.
  destruct (contains pattern stId) eqn:E.
  - by destruct pattern.
  - by rewrite replace_scan_absent.
Qed.

Lemma strip_pattern_leading pattern rest :
  contains pattern rest = false -> strip_pattern (pattern ++ rest) pattern = rest.
Proof.
  intros H. destruct pattern as [|a p] eqn:Ep.
  - by rewrite contains_nil in H.
  - rewrite <- Ep in *. assert (pattern <> []) by (by rewrite Ep).
    rewrite strip_pattern_scan, replace_scan_occurrence by done.
    simpl. by apply replace_scan_absent.
Qed.

Lemma strip_pattern_first stId pattern i :
  pattern <> [] -> find pattern stId = Some i ->
  strip_pattern stId pattern
  = take i stId ++ strip_pattern (drop (i + length pattern) stId) pattern.
Proof.
  intros Hne Hf. destruct (find_Some_split _ _ _ Hf) as [Hs Hj].
  rewrite !strip_pattern_scan by done.
  rewrite Hs at 1.
  rewrite replace_scan_first; [done|done|].
  intros j Hlt. rewrite <- Hs. apply Hj.
  rewrite length_take in Hlt. lia.
Qed.

Lemma lstrip_suffix s : exists ws, s = ws ++ lstrip s.
Proof.
  induction s as [|c s [ws IH]]; [by exists []|]. simpl.
  destruct (isspace c); [|by exists []].
  exists (c :: ws). simpl. by f_equal.
Qed.

Lemma lstrip_head s :
  match lstrip s with [] => True | c :: _ => isspace c = false end.
Proof.
  induction s as [|c s IH]; simpl; [done|].
  destruct (isspace c) eqn:E; [done|]. by rewrite E.
Qed.

Lemma trimmed_strip s : trimmed (strip s) = true.
Proof.
  unfold trimmed, strip, rstrip. rewrite rev_involutive.
  apply andb_true_iff. split.
  - pose proof (lstrip_head s) as Hh.
    destruct (lstrip_suffix (rev (lstrip s))) as [ws Hws].
    apply (f_equal (@rev ascii)) in Hws. rewrite rev_involutive, rev_app_distr in Hws.
    destruct (rev (lstrip (rev (lstrip s)))) as [|c u]; [done|].
    rewrite Hws in Hh. simpl in Hh. by rewrite Hh.
  - pose proof (lstrip_head (rev (lstrip s))) as Hh.
    destruct (lstrip (rev (lstrip s))); [done|]. by rewrite Hh.
Qed.

Lemma split_scan_nonempty sep s : forall skip cur,
  (1 <= length (split_scan sep skip cur s))%nat.
Proof.
  induction s as [|c s IH]; intros skip cur; simpl; [lia|].
  destruct skip; [|apply IH].
  destruct (startswith sep (c :: s)); [simpl; lia|apply IH].
Qed.

Lemma split_scan_no_sep t s : forall cur,
  contains [t] s = false -> split_scan [t] 0 cur s = [rev cur ++ s].
Proof.
  induction s as [|c s IH]; intros cur H.
  - simpl. by rewrite app_nil_r.
  - apply contains_cons_false in H as [H1 H2].
    cbn [split_scan]. rewrite H1, IH by done.
    simpl. by rewrite <- app_assoc.
Qed.

Lemma split_scan_sep t s : forall cur,
  contains [t] s = true -> (2 <= length (split_scan [t] 0 cur s))%nat.
Proof.
  induction s as [|c s IH]; intros cur H; [done|].
  cbn [split_scan]. destruct (startswith [t] (c :: s)) eqn:E.
  - pose proof (split_scan_nonempty [t] s (length [t] - 1) []). cbn [length] in *. lia.
  - apply IH. cbn [contains] in H. by rewrite E in H.
Qed.

Lemma fields_no_tab line : contains [TAB] line = false -> fields line = [line].
Proof. intros H. unfold fields. by rewrite split_scan_no_sep. Qed.

Lemma fields_tab line : contains [TAB] line = true -> (2 <= length (fields line))%nat.
Proof. apply split_scan_sep. Qed.

Lemma fields_two_iff line : (2 <= length (fields line))%nat <-> contains [TAB] line = true.
Proof.
  split; [|apply fields_tab].
  destruct (contains [TAB] line) eqn:E; [done|].
  rewrite fields_no_tab by done. simpl. lia.
Qed.

Lemma split_tab_fields line : split line [TAB] = Return (fields line).
Proof. done. Qed.

(** ** The loop of [gene_mappings] *)

Lemma slice_rest {A} (l : list A) : slice l 2 (length l) = drop 2 l.
Proof. unfold slice. apply take_ge. rewrite length_drop. lia. Qed.

Lemma index_middle {A} (l1 l2 : list A) x : index (l1 ++ x :: l2) (length l1) = Return x.
Proof. unfold index. by rewrite list_lookup_middle. Qed.

Lemma gene_mappings_step_row seen row todo acc :
  gene_mappings_step (seen ++ row :: todo, acc) (length seen)
  = (d <~ record_of_row row ;; Return (seen ++ map strip row :: todo, acc ++ [d])).
Proof.
  unfold gene_mappings_step, record_of_row.
  rewrite index_middle. cbn [rbind].
  rewrite insert_app_r_alt, Nat.sub_diag by lia. simpl insert.
  rewrite !index_middle. cbn [rbind].
  destruct (index (map strip row) 0) as [f0|e]; [|done]. cbn [rbind].
  destruct (index (map strip row) 1) as [f1|e]; [|done]. cbn [rbind].
  by rewrite slice_rest.
Qed.

Lemma gene_mappings_loop todo : forall seen acc,
  rfold gene_mappings_step (map (map strip) seen ++ todo, acc)
    (seq (length seen) (length todo))
  = (ds <~ rmap record_of_row todo ;;
     Return (map (map strip) (seen ++ todo), acc ++ ds)).
Proof.
  induction todo as [|row todo IH]; intros seen acc.
  - simpl. by rewrite !app_nil_r.
  - cbn [length seq rfold rmap].
    rewrite <- (length_map (map strip) seen) at 1.
    rewrite gene_mappings_step_row.
    destruct (record_of_row row) as [d|e]; [|done]. cbn [rbind].
    specialize (IH (seen ++ [row]) (acc ++ [d])).
    rewrite map_app, length_app in IH. cbn [map length] in IH.
    rewrite <- app_assoc in IH. cbn [app] in IH.
    rewrite Nat.add_1_r in IH. rewrite IH.
    destruct (rmap record_of_row todo) as [ds|e]; [|done]. cbn [rbind].
    by rewrite <- !app_assoc.
Qed.

Lemma gene_mappings_rows gm :
  rfold gene_mappings_step (gm, []) (seq 0 (length gm))
  = (ds <~ rmap record_of_row gm ;; Return (map (map strip) gm, ds)).
Proof. apply (gene_mappings_loop gm [] []). Qed.

Lemma record_of_row_two f0 f1 gs :
  record_of_row (f0 :: f1 :: gs)
  = Return {| name := strip f0; stId := strip f1; genes := map strip gs |}.
Proof. done. Qed.

Lemma record_of_row_short row : (length row < 2)%nat -> record_of_row row = Raise IndexError.
Proof. destruct row as [|f0 [|f1 gs]]; simpl; [done|done|lia]. Qed.

Lemma record_of_row_Return row d :
  record_of_row row = Return d -> (2 <= length row)%nat.
Proof.
  intros H. destruct (decide (2 <= length row)%nat); [done|].
  rewrite record_of_row_short in H by lia. done.
Qed.

Lemma rmap_Return {A B} (f : A -> result B) l l' :
  rmap f l = Return l' -> Forall2 (fun a b => f a = Return b) l l'.
Proof.
  revert l'. induction l as [|a l IH]; intros l'; simpl.
  - intros [= <-]. constructor.
  - destruct (f a) as [b|e] eqn:E; [|done]. cbn [rbind].
    destruct (rmap f l) as [bs|e]; [|done]. cbn [rbind].
    intros [= <-]. constructor; [done|]. by apply IH.
Qed.


Lemma rmap_Raise {A B} (f : A -> result B) l e :
  Forall (fun a => forall e', f a = Raise e' -> e' = e) l ->
  Exists (fun a => exists e', f a = Raise e') l ->
  rmap f l = Raise e.
Proof.
  induction 1 as [|a l Ha Hl IH]; intros Hex; [by inversion Hex|].
  simpl. destruct (f a) as [b|e'] eqn:E.
  - cbn [rbind]. rewrite IH; [done|].
    inversion Hex as [? ? [e' He']|]; [congruence|done].
  - cbn [rbind]. f_equal. by apply Ha.
Qed.

Lemma rmap_fields decoded :
  rmap (fun c => split c [TAB]) decoded = Return (map fields decoded).
Proof. induction decoded as [|c l IH]; cbn [rmap map]; [done|]. by rewrite IH. Qed.

(** ** The operations on the strings of the module *)

Example replace_all_occurrences :
  replace (py "R-HSA-R-HSA-1") (py "R-HSA-") [] = py "1".
Proof. reflexivity. Qed.

Example replace_inner_occurrence :
  replace (py "9606-R-HSA-1") (py "R-HSA-") [] = py "9606-1".
Proof. reflexivity. Qed.

Example replace_empty_old : replace (py "abc") [] (py "-") = py "-a-b-c-".
Proof. reflexivity. Qed.

Example replace_no_overlap : replace (py "aaa") (py "aa") (py "b") = py "ba".
Proof. reflexivity. Qed.

Example split_tab :
  split (py "a" ++ [TAB] ++ py "b" ++ [TAB; TAB] ++ py "c") [TAB]
  = Return [py "a"; py "b"; []; py "c"].
Proof. reflexivity. Qed.

Example split_two_characters :
  split (py "a, b,c, ") (py ", ") = Return [py "a"; py "b,c"; []].
Proof. reflexivity. Qed.

Example splitlines_ends :
  splitlines (py "ab" ++ [CR; LF] ++ py "c" ++ [LF; LF]) = [py "ab"; py "c"; []].
Proof. reflexivity. Qed.

Example strip_both_ends : strip ([TAB] ++ py "  a b " ++ [LF]) = py "a b".
Proof. reflexivity. Qed.

Example ehld_stids_summary :
  ehld_stids (serving 200 ehld_summary [] [])
  = ([Sent (get ehld_url [])], Return (Some [py "R-HSA-1"; py "R-HSA-2"])).
Proof. reflexivity. Qed.

Example gene_mappings_two_pathways :
  outcome (gene_mappings (serving 200 [] [] [gmt_two_pathways]))
  = Return (Some [ {| name := py "Apoptosis"; stId := py "R-HSA-109581";
                      genes := [py "BAX"; py "BCL2"] |};
                   {| name := py "Empty"; stId := py "R-HSA-2"; genes := [] |} ]).
Proof. by vm_compute. Qed.

Example gene_mappings_empty_archive :
  outcome (gene_mappings (serving 200 [] [] [])) = Raise IndexError.
Proof. by vm_compute. Qed.

(** The EHLD summary answered with 404 inside [sbgn_stids]: [ehld_stids]
    reports the status and returns [None], and [set(None)] raises. *)
Example sbgn_stids_ehld_missing :
  sbgn_stids (ehld_missing [py "R-HSA-1.sbgn"])
  = ([Sent (get sbgn_url []); Sent (get ehld_url []);
      Printed (py "Status code returned a value of 404")],
     Raise TypeError).
Proof. by vm_compute. Qed.

(** ** The request and the status check *)

Lemma try_request_fetched w req r :
  requests_request w req = Fetched r ->
  try_request w req = ([Sent req], Return (Some r)).
Proof. unfold try_request. by intros ->. Qed.

Lemma try_request_refused w req e :
  requests_request w req = ConnectionError e ->
  try_request w req = ([Sent req; Printed e], Return None).
Proof. unfold try_request. by intros ->. Qed.

Lemma try_request_raised w req e :
  requests_request w req = RequestException e ->
  try_request w req = ([Sent req], Raise (LibraryError e)).
Proof. unfold try_request. by intros ->. Qed.

Lemma requests_sent_try_request w req :
  requests_sent (trace (try_request w req)) = [req].
Proof. unfold try_request. by destruct (requests_request w req). Qed.

Lemma trace_bind {A B} (m : M A) (k : A -> M B) :
  trace (bind m k)
  = trace m ++ match outcome m with Return a => trace (k a) | Raise _ => [] end.
Proof.
  destruct m as [t [a|e]]; simpl.
  - by destruct (k a).
  - by rewrite app_nil_r.
Qed.

Lemma requests_sent_app t1 t2 :
  requests_sent (t1 ++ t2) = requests_sent t1 ++ requests_sent t2.
Proof.
  induction t1 as [|[r|l] t1 IH]; simpl; [done| |done]. by rewrite IH.
Qed.

Lemma requests_sent_json_or_status w response :
  requests_sent (trace (json_or_status w response)) = [].
Proof.
  unfold json_or_status. destruct response as [r|]; [|done].
  simpl. destruct (status_code r =? 200); [|done].
  by destruct (response_json w r).
Qed.

(** A JSON fetcher sends its request and no other. *)
Lemma requests_sent_json_fetcher w req :
  requests_sent (trace (response <- try_request w req ;; json_or_status w response)) = [req].
Proof.
  rewrite trace_bind, requests_sent_app, requests_sent_try_request.
  destruct (outcome (try_request w req)); [|done].
  by rewrite requests_sent_json_or_status.
Qed.

Lemma run_refused w f e :
  requests_request w (request_of f) = ConnectionError e ->
  run w f = ([Sent (request_of f); Printed e], Raise (UnboundLocalError "response")).
Proof. intros H. by run_fetcher f try_request_refused H. Qed.

Lemma run_status w f r :
  requests_request w (request_of f) = Fetched r ->
  status_code r <> 200 ->
  run w f = ([Sent (request_of f);
              Printed (py "Status code returned a value of " ++ str_of_int (status_code r))],
             Return PyNone).
Proof.
  intros H Hs. apply Z.eqb_neq in Hs.
  run_fetcher f try_request_fetched H; cbn [bind local ret]; by rewrite Hs.
Qed.

Lemma outcome_bind {A B} (m : M A) (k : A -> M B) :
  outcome (bind m k)
  = match outcome m with Return a => outcome (k a) | Raise e => Raise e end.
Proof. destruct m as [t [a|e]]; simpl; [|done]. by destruct (k a). Qed.

Lemma outcome_try_request w req v :
  outcome (try_request w req) = Return v ->
  match v with
  | Some r => requests_request w req = Fetched r
  | None => exists e, requests_request w req = ConnectionError e
  end.
Proof.
  unfold try_request. destruct (requests_request w req) as [r|e|e]; simpl.
  - by intros [= <-].
  - intros [= <-]. by exists e.
  - done.
Qed.

(** ** The listing fetchers *)

Lemma ehld_stids_Return w ids :
  outcome (ehld_stids w) = Return (Some ids) ->
  exists r,
    requests_request w (get ehld_url []) = Fetched r /\ status_code r = 200 /\
    ids = filter (fun s => contains (py "R-") s = true) (splitlines (text r)).
Proof.
  unfold ehld_stids. cbv zeta. rewrite outcome_bind.
  destruct (outcome (try_request w _)) as [[r|]|e] eqn:E; [|done|done].
  apply outcome_try_request in E.
  rewrite outcome_bind. cbn [local ret outcome snd].
  destruct (status_code r =? 200) eqn:Es; [|done].
  intros [= <-]. exists r. by apply Z.eqb_eq in Es.
Qed.

Lemma ehld_stids_200 w r :
  requests_request w (get ehld_url []) = Fetched r -> status_code r = 200 ->
  ehld_stids w
  = ([Sent (get ehld_url [])],
     Return (Some (filter (fun s => contains (py "R-") s = true) (splitlines (text r))))).
Proof.
  intros H Hs. unfold ehld_stids. cbv zeta.
  change (py "https://reactome.org/download/current/ehld/svgsummary.txt") with ehld_url.
  rewrite (try_request_fetched _ _ _ H). cbn [bind local ret].
  by rewrite Hs.
Qed.

Lemma sbgn_stids_Return w ids :
  outcome (sbgn_stids w) = Return (Some ids) ->
  exists r names ehlds,
    requests_request w (get sbgn_url []) = Fetched r /\ status_code r = 200 /\
    tarfile_getnames w (content r) = Return names /\
    outcome (ehld_stids w) = Return (Some ehlds) /\
    ids = elements (list_to_set (sbgn_names names) ∖ list_to_set ehlds : gset str).
Proof.
  unfold sbgn_stids. cbv zeta. rewrite outcome_bind.
  destruct (outcome (try_request w _)) as [[r|]|e] eqn:E; [|done|done].
  apply outcome_try_request in E.
  rewrite outcome_bind. cbn [local ret outcome snd].
  destruct (status_code r =? 200) eqn:Es; [|done].
  rewrite outcome_bind. unfold lift at 1. cbn [outcome snd].
  destruct (tarfile_getnames w (content r)) as [names|e] eqn:Et; [|done].
  rewrite outcome_bind.
  destruct (outcome (ehld_stids w)) as [[ehlds|]|e] eqn:Ee; [|done|done].
  rewrite outcome_bind. cbn.
  intros [= <-]. exists r, names, ehlds. by apply Z.eqb_eq in Es.
Qed.

(** ** The gene-mapping fetcher *)

Lemma gene_mappings_200 w decoded :
  first_member w decoded ->
  gene_mappings w
  = ([Sent (get gmt_url [])],
     ds <~ rmap record_of_row (map fields decoded) ;; Return (Some ds)).
Proof.
  intros (r & lines & rest & H & Hs & Hz & Hd).
  unfold gene_mappings. cbv zeta.
  change (py "https://reactome.org/download/current/ReactomePathways.gmt.zip") with gmt_url.
  rewrite (try_request_fetched _ _ _ H). cbn [bind local ret]. rewrite Hs.
  change (200 =? 200) with true. cbv iota.
  unfold _read_ziplines, _yield_zip. rewrite Hz. cbn [rbind index lookup list_lookup].
  rewrite Hd. cbn [rbind]. rewrite rmap_fields. unfold lift. cbn [bind app].
  rewrite gene_mappings_rows.
  by destruct (rmap record_of_row (map fields decoded)).
Qed.

Lemma gene_mappings_Return w recs :
  outcome (gene_mappings w) = Return (Some recs) ->
  exists decoded,
    first_member w decoded /\ rmap record_of_row (map fields decoded) = Return recs.
Proof.
  unfold gene_mappings. cbv zeta. rewrite outcome_bind.
  destruct (outcome (try_request w _)) as [[r|]|e] eqn:E; [|done|done].
  apply outcome_try_request in E.
  rewrite outcome_bind. cbn [local ret outcome snd].
  destruct (status_code r =? 200) eqn:Es; [|done]. apply Z.eqb_eq in Es.
  rewrite outcome_bind. unfold lift at 1. cbn [outcome snd].
  unfold _read_ziplines, _yield_zip.
  destruct (zipfile_readlines w (content r)) as [[|lines rest]|e] eqn:Ez; [done| |done].
  cbn [rbind index lookup list_lookup].
  destruct (rmap (decode_utf8 w) lines) as [decoded|e] eqn:Ed; [|done].
  cbn [rbind]. rewrite rmap_fields.
  rewrite outcome_bind. unfold lift at 1. cbn [outcome snd].
  rewrite gene_mappings_rows.
  destruct (rmap record_of_row (map fields decoded)) as [ds|e] eqn:Er; [|done].
  cbn. intros [= <-]. exists decoded. split; [|done].
  by exists r, lines, rest.
Qed.

Lemma record_of_row_spec line d :
  record_of_row (fields line) = Return d -> spec_record line d.
Proof.
  unfold spec_record. destruct (fields line) as [|f0 [|f1 gs]]; [done|done|].
  rewrite record_of_row_two. intros [= <-]. by exists f0, f1, gs.
Qed.

Lemma records_spec decoded recs :
  rmap record_of_row (map fields decoded) = Return recs ->
  Forall2 spec_record decoded recs.
Proof.
  intros H. apply rmap_Return in H. apply Forall2_fmap_l in H.
  eapply Forall2_impl; [exact H|]. intros l d. apply record_of_row_spec.
Qed.


Lemma records_two_fields decoded recs :
  rmap record_of_row (map fields decoded) = Return recs ->
  Forall (fun l => (2 <= length (fields l))%nat) decoded.
Proof.
  intros H. apply rmap_Return in H. apply Forall2_fmap_l in H.
  apply Forall2_Forall_l with (Q := fun l => (2 <= length (fields l))%nat) in H; [done|].
  apply Forall_true. intros d l Hd. by apply record_of_row_Return in Hd.
Qed.

Lemma spec_record_genes line d :
  spec_record line d -> length (fields line) = 2%nat -> genes d = [].
Proof.
  intros (f0 & f1 & gs & Hf & ->) Hl. rewrite Hf in Hl. by destruct gs.
Qed.

Lemma spec_record_trimmed line d :
  spec_record line d ->
  trimmed (name d) = true /\ trimmed (stId d) = true /\
  Forall (fun g => trimmed g = true) (genes d).
Proof.
  intros (f0 & f1 & gs & _ & ->). simpl.
  split; [apply trimmed_strip|]. split; [apply trimmed_strip|].
  apply Forall_fmap, Forall_true. intros g. apply trimmed_strip.
Qed.

Lemma record_of_row_Raise row e : record_of_row row = Raise e -> e = IndexError.
Proof.
  destruct (decide (length row < 2)%nat) as [Hl|Hl].
  - rewrite record_of_row_short by done. by intros [= <-].
  - destruct row as [|f0 [|f1 gs]]; simpl in Hl; [lia|lia|].
    by rewrite record_of_row_two.
Qed.

Lemma startswith_refl s : startswith s s = true.
Proof. rewrite <- (app_nil_r s) at 2. apply startswith_app. Qed.

Lemma contains_suffix pre sub : contains sub (pre ++ sub) = true.
Proof.
  induction pre as [|c pre IH]; cbn [app].
  - apply contains_startswith, startswith_refl.
  - by apply contains_cons.
Qed.

(** ** Fields, white space and numerals, without [split] and [strip] *)

Lemma elem_of_rev {A} (x : A) (l : list A) : x ∈ rev l <-> x ∈ l.
Proof. rewrite !list_elem_of_In. symmetry. apply in_rev. Qed.

Lemma split_scan_skip sep pre s cur :
  split_scan sep (length pre) cur (pre ++ s) = split_scan sep 0 cur s.
Proof. induction pre as [|c pre IH]; [done|]. simpl. apply IH. Qed.

Lemma join_cons sep x l : l <> [] -> join sep (x :: l) = x ++ sep ++ join sep l.
Proof. by destruct l. Qed.

Lemma split_scan_join sep n :
  sep <> [] -> forall s cur,
  (length s <= n)%nat -> join sep (split_scan sep 0 cur s) = rev cur ++ s.
Proof.
  intros Hne. induction n as [|n IH]; intros s cur Hn.
  - destruct s; [|simpl in Hn; lia]. simpl. by rewrite app_nil_r.
  - destruct s as [|c s]; [simpl; by rewrite app_nil_r|].
    simpl in Hn. cbn [split_scan].
    destruct (startswith sep (c :: s)) eqn:E.
    + destruct (startswith_inv _ _ E) as [rest Hr].
      destruct sep as [|a p]; [done|]. injection Hr as -> ->.
      cbn [length]. replace (S (length p) - 1)%nat with (length p) by lia.
      rewrite split_scan_skip, join_cons.
      * rewrite IH by (rewrite length_app in Hn; lia). done.
      * pose proof (split_scan_nonempty (a :: p) rest 0 []) as Hl.
        intros Heq. rewrite Heq in Hl. simpl in Hl. lia.
    + rewrite IH by lia. simpl. by rewrite <- app_assoc.
Qed.

Lemma lstrip_split s :
  exists ws, s = ws ++ lstrip s /\ Forall (fun c => isspace c = true) ws.
Proof.
  induction s as [|c s (ws & IH & Hws)]; [by exists []|]. simpl.
  destruct (isspace c) eqn:E; [|by exists []].
  exists (c :: ws). split; [simpl; by f_equal|by constructor].
Qed.

Lemma strip_split s :
  exists pre post,
    s = pre ++ strip s ++ post /\
    Forall (fun c => isspace c = true) pre /\
    Forall (fun c => isspace c = true) post.
Proof.
  destruct (lstrip_split s) as (pre & Hs & Hpre).
  destruct (lstrip_split (rev (lstrip s))) as (ws & Hr & Hws).
  exists pre, (rev ws). split; [|split; [done|by apply Forall_rev]].
  unfold strip, rstrip. rewrite <- rev_app_distr, <- Hr, rev_involutive. done.
Qed.

Lemma split_scan_char_free t s : forall cur,
  t ∉ cur -> Forall (fun f : str => t ∉ f) (split_scan [t] 0 cur s).
Proof.
  induction s as [|c s IH]; intros cur Hcur.
  - simpl. repeat constructor. by rewrite elem_of_rev.
  - cbn [split_scan]. destruct (startswith [t] (c :: s)) eqn:E.
    + constructor; [by rewrite elem_of_rev|].
      apply IH. apply not_elem_of_nil.
    + apply IH. apply not_elem_of_cons. split; [|done].
      intros ->. simpl in E. by rewrite chr_eqb_refl in E.
Qed.

Lemma split_scan_field t f rest : t ∉ f -> forall cur,
  split_scan [t] 0 cur (f ++ rest) = split_scan [t] 0 (rev f ++ cur) rest.
Proof.
  induction f as [|c f IH]; intros Hf cur; [done|].
  apply not_elem_of_cons in Hf as [Hc Hf].
  cbn [app split_scan].
  rewrite startswith_head_absent; [|done|].
  - rewrite IH by done. simpl. by rewrite <- app_assoc.
  - apply not_elem_of_cons. split; [done|apply not_elem_of_nil].
Qed.






Example int_of_str_reads :
  int_of_str (py "404") = Some 404 /\ int_of_str (py "-12") = Some (-12) /\
  int_of_str (py "4o4") = None /\ int_of_str (py "-") = None /\ int_of_str [] = None.
Proof. repeat split. Qed.

Example trim_of_field : trim_of (py " BCL2 " ++ [LF]) (py "BCL2").
Proof.
  split; [reflexivity|]. exists (py " "), (py " " ++ [LF]).
  split; [reflexivity|]. split; repeat constructor.
Qed.

Lemma digit_pretty_N_char d : (d < 10)%N -> digit (pretty_N_char d) = Some d.
Proof.
  intros H.
  assert (d = 0 \/ d = 1 \/ d = 2 \/ d = 3 \/ d = 4 \/ d = 5 \/ d = 6 \/ d = 7
          \/ d = 8 \/ d = 9)%N as Hd by lia.
  repeat (destruct Hd as [->|Hd]; [reflexivity|]). by subst.
Qed.

Lemma digits_value_app l1 l2 : forall a,
  digits_value a (l1 ++ l2)
  = match digits_value a l1 with Some b => digits_value b l2 | None => None end.
Proof.
  induction l1 as [|c l1 IH]; intros a; [done|].
  cbn [app digits_value]. destruct (digit c); [apply IH|done].
Qed.

(** [pretty_N_go x s] puts in front of [s] digits that write [x]. *)
Lemma pretty_N_go_digits x : forall s,
  exists l,
    list_ascii_of_string (pretty_N_go x s) = l ++ list_ascii_of_string s /\
    ((0 < x)%N -> l <> []) /\
    forall a, digits_value a l = Some (a * 10 ^ N.of_nat (length l) + x)%N.
Proof.
  induction (N.lt_wf_0 x) as [x _ IH]. intros s.
  assert (x = 0 \/ 0 < x)%N as [->|Hx] by lia.
  - exists []. rewrite pretty_N_go_0. split; [done|]. split; [lia|].
    intros a. simpl. f_equal. lia.
  - rewrite pretty_N_go_step by done.
    destruct (IH (x `div` 10)%N (N.div_lt x 10 Hx eq_refl)
                (String (pretty_N_char (x `mod` 10)) s)) as (l & Hl & _ & Hv).
    exists (l ++ [pretty_N_char (x `mod` 10)%N]). split; [|split].
    + rewrite Hl. cbn [list_ascii_of_string]. by rewrite <- app_assoc.
    + intros _. by destruct l.
    + intros a. rewrite digits_value_app, Hv. cbn [digits_value].
      rewrite digit_pretty_N_char by (apply N.mod_lt; lia).
      f_equal. rewrite length_app. cbn [length].
      replace (N.of_nat (length l + 1)) with (N.succ (N.of_nat (length l))) by lia.
      rewrite N.pow_succ_r'.
      pose proof (N.div_mod' x 10) as Hdm.
      set (P := (10 ^ N.of_nat (length l))%N) in *. lia.
Qed.

Lemma digits_value_head c l a n : digits_value a (c :: l) = Some n -> chr_eqb c MINUS = false.
Proof.
  cbn [digits_value]. destruct (digit c) eqn:E; [|done]. intros _.
  destruct (chr_eqb c MINUS) eqn:Ec; [|done].
  apply chr_eqb_true in Ec as ->. by vm_compute in E.
Qed.

Lemma int_of_str_pos p :
  exists l, list_ascii_of_string (pretty (N.pos p)) = l /\ l <> [] /\
            digits_value 0 l = Some (N.pos p) /\ int_of_str l = Some (Z.pos p).
Proof.
  unfold pretty, pretty_N. destruct (decide (N.pos p = 0%N)) as [|_]; [done|].
  destruct (pretty_N_go_digits (N.pos p) "") as (l & Hl & Hne & Hv).
  exists l. cbn [list_ascii_of_string] in Hl. rewrite app_nil_r in Hl.
  specialize (Hv 0%N). rewrite N.mul_0_l, N.add_0_l in Hv.
  split; [done|]. split; [apply Hne; lia|]. split; [done|].
  destruct l as [|c l]; [by destruct Hne; [lia|]|].
  unfold int_of_str. rewrite (digits_value_head _ _ _ _ Hv), Hv. done.
Qed.

(** The printed numeral reads back as the integer. *)
Lemma int_of_str_of_int n : int_of_str (str_of_int n) = Some n.
Proof.
  unfold str_of_int, py. destruct n as [|p|p].
  - reflexivity.
  - change (pretty (Z.pos p)) with (pretty (N.pos p)).
    by destruct (int_of_str_pos p) as (l & -> & _ & _ & H).
  - change (pretty (Z.neg p)) with (String MINUS (pretty (N.pos p))).
    cbn [list_ascii_of_string].
    destruct (int_of_str_pos p) as (l & -> & Hne & Hv & _).
    unfold int_of_str. rewrite chr_eqb_refl. destruct l as [|c l]; [done|].
    by rewrite Hv.
Qed.

(** * The claims *)

(** ** Pathway-conversion fetchers *)

(** C1 (as amended).  Each of [pathway_fi], [pathway_boolean_network] and
    [pathway_factor_graph] sends exactly one request, to its endpoint followed
    by the identifier [strip_pattern stId pattern].  That identifier is [stId]
    itself when [stId] does not contain the pattern; otherwise it is
    [stId.replace(pattern, "")], every occurrence of the pattern removed in a
    left-to-right scan: the text before the first occurrence is kept and the
    rule applies again to what follows it.  It is [stId] with one leading
    occurrence removed when [stId] is the pattern followed by a remainder that
    does not contain the pattern. *)
Theorem pathway_conversion_identifier (w : world) (stId pattern : str) :
  let ident := strip_pattern stId pattern in
  requests_sent (trace (pathway_fi w stId pattern))
    = [get (pathway_fi_base ++ ident) accept_json] /\
  requests_sent (trace (pathway_boolean_network w stId pattern))
    = [get (pathway_boolean_network_base ++ ident) accept_json] /\
  requests_sent (trace (pathway_factor_graph w stId pattern))
    = [post (pathway_factor_graph_base ++ ident) accept_json None] /\
  (contains pattern stId = false -> ident = stId) /\
  (contains pattern stId = true -> ident = replace stId pattern []) /\
  (forall rest, stId = pattern ++ rest -> contains pattern rest = false -> ident = rest) /\
  (forall i, pattern <> [] -> find pattern stId = Some i ->
     ident = take i stId ++ strip_pattern (drop (i + length pattern) stId) pattern).
Proof.
  intros ident. subst ident.
  split; [apply requests_sent_json_fetcher|].
  split; [apply requests_sent_json_fetcher|].
  split; [apply requests_sent_json_fetcher|].
  split; [apply strip_pattern_absent|].
  split; [unfold strip_pattern; by intros ->|].
  split.
  - intros rest -> H. by apply strip_pattern_leading.
  - intros i Hne Hf. by apply strip_pattern_first.
Qed.

Lemma pathway_conversion_identifier_witness :
  strip_pattern default_stId default_pattern = py "177929".
Proof.
  destruct (pathway_conversion_identifier offline default_stId default_pattern)
    as (_ & _ & _ & _ & _ & H & _).
  apply H; reflexivity.
Defined.

(** C1 as stated fails: with the prefix twice in front, [pathway_fi] does not
    request the identifier with one leading prefix removed. *)
Lemma pathway_fi_repeated_prefix :
  contains default_pattern (py "R-HSA-R-HSA-1") = true /\
  spec_strip_leading_once (py "R-HSA-R-HSA-1") default_pattern = py "R-HSA-1" /\
  requests_sent (trace (pathway_fi offline (py "R-HSA-R-HSA-1") default_pattern))
    = [get (pathway_fi_base ++ py "1") accept_json] /\
  requests_sent (trace (pathway_fi offline (py "R-HSA-R-HSA-1") default_pattern))
    <> [get (pathway_fi_base
               ++ spec_strip_leading_once (py "R-HSA-R-HSA-1") default_pattern)
          accept_json].
Proof. repeat split; [vm_compute; congruence]. Qed.

(** C8.  Whatever the remote side answers, [pathway_fi] called with
    ["R-HSA-177929"] and the default pattern sends one request, a GET, whose
    URL ends in [convertPathwayToFIs/177929]. *)
Theorem pathway_fi_default_request (w : world) :
  exists req,
    requests_sent (trace (pathway_fi w (py "R-HSA-177929") default_pattern)) = [req] /\
    req_method req = GET /\
    req_url req
      = py "http://cpws.reactome.org/caBigR3WebApp2018/FIService/network/convertPathwayToFIs/177929" /\
    endswith (py "convertPathwayToFIs/177929") (req_url req) = true.
Proof.
  eexists. split; [apply requests_sent_json_fetcher|].
  repeat split.
Qed.

(** ** Failures *)

(** C3.  For every public function: when the transport raises
    [ConnectionError] on the function's request, the error is printed and the
    call ends with the fault of reading the unassigned local [response]; it
    returns no value. *)
Theorem connection_failure_unbound_response (w : world) (f : fetcher) (e : str) :
  requests_request w (request_of f) = ConnectionError e ->
  run w f = ([Sent (request_of f); Printed e], Raise (UnboundLocalError "response")) /\
  forall v, outcome (run w f) <> Return v.
Proof.
  intros H.
  assert (Hrun : run w f
                 = ([Sent (request_of f); Printed e], Raise (UnboundLocalError "response")))
    by by run_fetcher f try_request_refused H.
  split; [done|]. intros v. by rewrite Hrun.
Qed.

Lemma connection_failure_unbound_response_witness :
  run offline Gene_mappings
  = ([Sent (get gmt_url []); Printed (py "Max retries exceeded")],
     Raise (UnboundLocalError "response")).
Proof.
  apply (connection_failure_unbound_response offline Gene_mappings (py "Max retries exceeded")).
  reflexivity.
Defined.

(** C7.  For every public function: when the response to the function's
    own request has a status outside 200..299, the call prints
    [Status code returned a value of <status>], the status written as the
    decimal numeral that reads back as it, and returns [None]; nothing is
    raised.  The claim fails for the other response that [sbgn_stids] gets,
    the one to the EHLD request it makes through [ehld_stids]: with the
    archive served and read, a status outside 200..299 there is printed by
    [ehld_stids], and [sbgn_stids] then raises [TypeError] on [set(None)]
    instead of returning no value. *)
Theorem non_2xx_status_reported (w : world) :
  (forall f r,
     requests_request w (request_of f) = Fetched r ->
     ~ (200 <= status_code r < 300) ->
     exists numeral,
       run w f = ([Sent (request_of f);
                   Printed (py "Status code returned a value of " ++ numeral)],
                  Return PyNone) /\
       int_of_str numeral = Some (status_code r)) /\
  (forall r names r',
     requests_request w (get sbgn_url []) = Fetched r -> status_code r = 200 ->
     tarfile_getnames w (content r) = Return names ->
     requests_request w (get ehld_url []) = Fetched r' ->
     ~ (200 <= status_code r' < 300) ->
     exists numeral,
       run w Sbgn_stids
       = ([Sent (get sbgn_url []); Sent (get ehld_url []);
           Printed (py "Status code returned a value of " ++ numeral)],
          Raise TypeError) /\
       int_of_str numeral = Some (status_code r')).
Proof.
  split.
  - intros f r H Hs. exists (str_of_int (status_code r)). split.
    + apply run_status; [done|lia].
    + apply int_of_str_of_int.
  - intros r names r' H Hs Ht H' Hs'. exists (str_of_int (status_code r')).
    split; [|apply int_of_str_of_int].
    assert (Hs'' : status_code r' <> 200) by lia.
    pose proof (run_status w Ehld_stids r' H' Hs'') as Hrun.
    cbn [run request_of] in *. unfold returned in *.
    unfold sbgn_stids. cbv zeta.
    change (py "https://reactome.org/download/current/homo_sapiens.sbgn.tar.gz")
      with sbgn_url.
    rewrite (try_request_fetched _ _ _ H). cbn [bind local ret]. rewrite Hs.
    change (200 =? 200) with true. cbv iota. unfold lift at 1. rewrite Ht.
    cbn [bind]. destruct (ehld_stids w) as [t [[ids|]|e]]; cbn in Hrun; [done| |done].
    rewrite app_nil_r in Hrun. injection Hrun as ->. reflexivity.
Qed.

Lemma non_2xx_status_reported_witness :
  exists numeral,
    run (ehld_missing [py "R-HSA-1.sbgn"]) Sbgn_stids
    = ([Sent (get sbgn_url []); Sent (get ehld_url []);
        Printed (py "Status code returned a value of " ++ numeral)],
       Raise TypeError) /\
    int_of_str numeral = Some 404.
Proof.
  apply (proj2 (non_2xx_status_reported (ehld_missing [py "R-HSA-1.sbgn"]))
           {| status_code := 200; text := []; content := [] |} [py "R-HSA-1.sbgn"]
           {| status_code := 404; text := []; content := [] |});
    first [ reflexivity | simpl; lia ].
Defined.

(** ** Listing fetchers *)

(** C2 (as amended).  Every string returned by [ehld_stids] contains [R-].
    Every string returned by [sbgn_stids] is the name of a member of the
    served archive with [.sbgn] removed, and contains [R-] whenever that
    member name does. *)
Theorem listing_identifiers (w : world) :
  (forall ids x,
     outcome (ehld_stids w) = Return (Some ids) -> x ∈ ids ->
     contains (py "R-") x = true) /\
  (forall ids x,
     outcome (sbgn_stids w) = Return (Some ids) -> x ∈ ids ->
     exists r names f,
       requests_request w (get sbgn_url []) = Fetched r /\
       tarfile_getnames w (content r) = Return names /\
       f ∈ names /\ x = replace f (py ".sbgn") [] /\
       (contains (py "R-") f = true -> contains (py "R-") x = true)).
Proof.
  split.
  - intros ids x H Hx. apply ehld_stids_Return in H as (r & _ & _ & ->).
    by apply list_elem_of_filter in Hx as [Hx _].
  - intros ids x H Hx.
    apply sbgn_stids_Return in H as (r & names & ehlds & Hr & _ & Ht & _ & ->).
    apply elem_of_elements, elem_of_difference in Hx as [Hx _].
    apply elem_of_list_to_set in Hx. unfold sbgn_names in Hx.
    apply list_elem_of_fmap in Hx as (f & -> & Hf).
    exists r, names, f. repeat split; [done..|].
    apply (replace_scan_keeps_pair (py ".sbgn")); [done| | |by constructor];
      intros Hin; repeat (apply elem_of_cons in Hin as [Hin|Hin]; [done|]);
      by apply elem_of_nil in Hin.
Qed.

Lemma listing_identifiers_witness :
  contains (py "R-") (py "R-HSA-2") = true.
Proof.
  apply (proj1 (listing_identifiers (serving 200 ehld_summary sbgn_archive []))
           [py "R-HSA-1"; py "R-HSA-2"] (py "R-HSA-2")).
  - reflexivity.
  - right. left.
Defined.

(** C2 as stated fails for [sbgn_stids]: an archive member named
    [diagram.sbgn] is returned as [diagram]. *)
Lemma sbgn_stids_without_R :
  outcome (sbgn_stids (serving 200 [] [py "diagram.sbgn"] [])) = Return (Some [py "diagram"]) /\
  contains (py "R-") (py "diagram") = false.
Proof. split; by vm_compute. Qed.

(** C4.  When [sbgn_stids] and [ehld_stids] both return a list against the
    same remote side, no identifier is in both. *)
Theorem sbgn_ehld_disjoint (w : world) (sbgns ehlds : list str) :
  outcome (sbgn_stids w) = Return (Some sbgns) ->
  outcome (ehld_stids w) = Return (Some ehlds) ->
  forall x, x ∈ sbgns -> x ∉ ehlds.
Proof.
  intros Hs He x Hx Hin.
  apply sbgn_stids_Return in Hs as (r & names & ehlds' & _ & _ & _ & He' & ->).
  rewrite He in He'. injection He' as <-.
  apply elem_of_elements, elem_of_difference in Hx as [_ Hx].
  apply Hx. by apply elem_of_list_to_set.
Qed.

Lemma sbgn_ehld_disjoint_witness :
  py "R-HSA-3" ∈ [py "R-HSA-3"] /\ py "R-HSA-3" ∉ [py "R-HSA-1"; py "R-HSA-2"].
Proof.
  split; [left|].
  apply (sbgn_ehld_disjoint (serving 200 ehld_summary sbgn_archive [])
           [py "R-HSA-3"] [py "R-HSA-1"; py "R-HSA-2"]).
  - vm_compute. reflexivity.
  - vm_compute. reflexivity.
  - left.
Defined.

(** C10.  The list returned by [sbgn_stids] has no duplicates. *)
Theorem sbgn_stids_NoDup (w : world) (sbgns : list str) :
  outcome (sbgn_stids w) = Return (Some sbgns) -> NoDup sbgns.
Proof.
  intros Hs.
  apply sbgn_stids_Return in Hs as (r & names & ehlds & _ & _ & _ & _ & ->).
  apply NoDup_elements.
Qed.

Lemma sbgn_stids_NoDup_witness : NoDup [py "R-HSA-3"].
Proof.
  apply (sbgn_stids_NoDup (serving 200 ehld_summary sbgn_archive [])).
  vm_compute. reflexivity.
Defined.

(** ** Gene mappings *)



(** C6 (as amended).  In every record returned by [gene_mappings], name and
    stId are strings, possibly empty, with no white space at either end, and
    so is every element of genes. *)
Theorem gene_mappings_trimmed (w : world) (recs : list mapping) (d : mapping) :
  outcome (gene_mappings w) = Return (Some recs) -> d ∈ recs ->
  trimmed (name d) = true /\ trimmed (stId d) = true /\
  Forall (fun g => trimmed g = true) (genes d).
Proof.
  intros H Hd. apply gene_mappings_Return in H as (decoded & _ & Hr).
  apply records_spec in Hr.
  apply list_elem_of_lookup in Hd as [i Hi].
  destruct (Forall2_lookup_r _ _ _ _ _ Hr Hi) as (line & _ & Hspec).
  by eapply spec_record_trimmed.
Qed.

Lemma gene_mappings_trimmed_witness :
  trimmed (py "Apoptosis") = true /\ trimmed (py "R-HSA-109581") = true /\
  Forall (fun g => trimmed g = true) [py "BAX"; py "BCL2"].
Proof.
  apply (gene_mappings_trimmed (serving 200 [] [] [gmt_two_pathways])
           [ {| name := py "Apoptosis"; stId := py "R-HSA-109581";
                genes := [py "BAX"; py "BCL2"] |};
             {| name := py "Empty"; stId := py "R-HSA-2"; genes := [] |} ]
           {| name := py "Apoptosis"; stId := py "R-HSA-109581";
              genes := [py "BAX"; py "BCL2"] |}).
  - vm_compute. reflexivity.
  - left.
Defined.

(** C6 as stated fails: a line whose first column is empty gives a record
    with an empty name. *)
Lemma gene_mappings_empty_name :
  exists d,
    outcome (gene_mappings (serving 200 [] [] [gmt_no_name])) = Return (Some [d]) /\
    stId d = py "R-HSA-2" /\ ~ name d <> [].
Proof.
  exists {| name := []; stId := py "R-HSA-2"; genes := [] |}.
  split; [by vm_compute|]. split; [done|]. by intros H.
Qed.

(** C9.  A call of [gene_mappings] returns a list only if every decoded line
    of the first archive member has at least two tab-separated fields.  When
    some line has no tab, its only field is field 0, reading field 1 is out of
    range, and the call raises [IndexError]. *)
Theorem gene_mappings_needs_two_fields (w : world) :
  (forall recs,
     outcome (gene_mappings w) = Return (Some recs) ->
     exists decoded,
       first_member w decoded /\
       Forall (fun line => (2 <= length (fields line))%nat) decoded) /\
  (forall line,
     contains [TAB] line = false ->
     index (map strip (fields line)) 0 = Return (strip line) /\
     index (map strip (fields line)) 1 = Raise IndexError) /\
  (forall decoded,
     first_member w decoded ->
     Exists (fun line => contains [TAB] line = false) decoded ->
     gene_mappings w = ([Sent (get gmt_url [])], Raise IndexError)).
Proof.
  split; [|split].
  - intros recs H. apply gene_mappings_Return in H as (decoded & Hm & Hr).
    exists decoded. split; [done|]. by eapply records_two_fields.
  - intros line H. by rewrite fields_no_tab.
  - intros decoded Hm Hex. rewrite (gene_mappings_200 _ _ Hm).
    rewrite (rmap_Raise _ _ IndexError); [done| |].
    + apply Forall_true. intros row e. apply record_of_row_Raise.
    + apply Exists_fmap. eapply Exists_impl; [exact Hex|].
      intros line Hl. cbn beta. exists IndexError.
      rewrite fields_no_tab by done. apply record_of_row_short. simpl. lia.
Qed.

Lemma gene_mappings_needs_two_fields_witness :
  gene_mappings (serving 200 [] [] [gmt_blank_line])
  = ([Sent (get gmt_url [])], Raise IndexError).
Proof.
  apply (proj2 (proj2 (gene_mappings_needs_two_fields (serving 200 [] [] [gmt_blank_line])))
           gmt_blank_line).
  - do 3 eexists. repeat split.
  - right. left. reflexivity.
Defined.

(** * Further properties *)

(** ** How a call ends, by what the transport did *)

Lemma outcome_returned {A} (inj : A -> value) (m : M (option A)) :
  outcome (returned inj m)
  = match outcome m with
    | Return (Some a) => Return (inj a)
    | Return None => Return PyNone
    | Raise e => Raise e
    end.
Proof. by destruct m as [t [[a|]|e]]. Qed.

Lemma trace_returned {A} (inj : A -> value) (m : M (option A)) :
  trace (returned inj m) = trace m.
Proof. destruct m as [t [[a|]|e]]; simpl; by rewrite ?app_nil_r. Qed.

Lemma run_raised w f e :
  requests_request w (request_of f) = RequestException e ->
  run w f = ([Sent (request_of f)], Raise (LibraryError e)).
Proof. intros H. by run_fetcher f try_request_raised H. Qed.

Lemma run_json_200 w f r :
  is_json_fetcher f = true ->
  requests_request w (request_of f) = Fetched r -> status_code r = 200 ->
  run w f
  = ([Sent (request_of f)],
     match response_json w r with
     | Return j => Return (PyJson j)
     | Raise e => Raise e
     end).
Proof.
  intros Hj H Hs. apply Z.eqb_eq in Hs.
  run_fetcher f try_request_fetched H; simpl in Hj; try discriminate Hj;
    cbn [bind local ret]; rewrite Hs; by destruct (response_json w r).
Qed.

Lemma sbgn_stids_200 w r :
  requests_request w (get sbgn_url []) = Fetched r -> status_code r = 200 ->
  sbgn_stids w
  = match tarfile_getnames w (content r) with
    | Raise e => ([Sent (get sbgn_url [])], Raise e)
    | Return names =>
        (Sent (get sbgn_url []) :: trace (ehld_stids w),
         match outcome (ehld_stids w) with
         | Return (Some ehlds) =>
             Return (Some (elements
                             (list_to_set (sbgn_names names) ∖ list_to_set ehlds : gset str)))
         | Return None => Raise TypeError
         | Raise e => Raise e
         end)
    end.
Proof.
  intros H Hs. apply Z.eqb_eq in Hs. unfold sbgn_stids. cbv zeta.
  change (py "https://reactome.org/download/current/homo_sapiens.sbgn.tar.gz") with sbgn_url.
  rewrite (try_request_fetched _ _ _ H). cbn [bind local ret]. rewrite Hs.
  unfold lift at 1.
  destruct (tarfile_getnames w (content r)) as [names|e]; [|done].
  cbn [bind]. destruct (ehld_stids w) as [t [[ehlds|]|e]]; cbn; by rewrite ?app_nil_r.
Qed.

Lemma gene_mappings_fetched_200 w r :
  requests_request w (get gmt_url []) = Fetched r -> status_code r = 200 ->
  gene_mappings w
  = ([Sent (get gmt_url [])],
     gm <~ _read_ziplines w r ;; ds <~ rmap record_of_row gm ;; Return (Some ds)).
Proof.
  intros H Hs. apply Z.eqb_eq in Hs. unfold gene_mappings. cbv zeta.
  change (py "https://reactome.org/download/current/ReactomePathways.gmt.zip") with gmt_url.
  rewrite (try_request_fetched _ _ _ H). cbn [bind local ret]. rewrite Hs.
  unfold lift at 1.
  destruct (_read_ziplines w r) as [gm|e]; [|done].
  cbn [bind rbind]. unfold lift. rewrite gene_mappings_rows.
  by destruct (rmap record_of_row gm).
Qed.

Lemma ehld_stids_quiet w ids :
  outcome (ehld_stids w) = Return (Some ids) ->
  trace (ehld_stids w) = [Sent (get ehld_url [])].
Proof.
  intros H. apply ehld_stids_Return in H as (r & Hr & Hs & _).
  by rewrite (ehld_stids_200 _ _ Hr Hs).
Qed.

(** A call answered with status 200 that returns printed nothing.  A
    download fetcher then returns a list; a JSON fetcher returns what
    [response.json()] gave, which is [None] for the body [null]. *)
Lemma run_200 w f r v :
  requests_request w (request_of f) = Fetched r -> status_code r = 200 ->
  outcome (run w f) = Return v ->
  printed_lines (trace (run w f)) = [] /\
  if is_json_fetcher f
  then exists j, response_json w r = Return j /\ v = PyJson j
  else is_None v = false.
Proof.
  intros H Hs Hv.
  destruct (is_json_fetcher f) eqn:Hj.
  - rewrite (run_json_200 _ _ _ Hj H Hs) in Hv |- *. cbn [outcome snd trace fst] in *.
    split; [done|]. destruct (response_json w r) as [j|e]; [|done].
    injection Hv as <-. by exists j.
  - destruct f; try discriminate Hj; cbn [run request_of] in *.
    + rewrite (ehld_stids_200 _ _ H Hs) in Hv |- *. cbn in Hv. by injection Hv as <-.
    + rewrite trace_returned. rewrite outcome_returned in Hv.
      rewrite (sbgn_stids_200 _ _ H Hs) in Hv |- *.
      destruct (tarfile_getnames w (content r)); [|done].
      cbn [outcome snd trace fst] in *.
      destruct (outcome (ehld_stids w)) as [[ehlds|]|e] eqn:He; [|done|done].
      injection Hv as <-. rewrite (ehld_stids_quiet _ _ He). by split.
    + rewrite (gene_mappings_fetched_200 _ _ H Hs) in Hv |- *.
      destruct (_read_ziplines w r) as [gm|e]; [|done]. cbn [rbind] in *.
      destruct (rmap record_of_row gm); [|done]. cbn in Hv. by injection Hv as <-.
Qed.

(** X1.  Only [ConnectionError] is caught.  When [requests] raises another of
    its exceptions on the request of a public function, the call raises it:
    nothing is printed and no value is returned. *)
Theorem other_request_exception_propagates (w : world) (f : fetcher) (e : str) :
  requests_request w (request_of f) = RequestException e ->
  run w f = ([Sent (request_of f)], Raise (LibraryError e)) /\
  printed_lines (trace (run w f)) = [].
Proof. intros H. rewrite (run_raised _ _ _ H). by split. Qed.

Lemma other_request_exception_propagates_witness :
  run redirecting (Drug_data_source (py "drugcentral"))
  = ([Sent (request_of (Drug_data_source (py "drugcentral")))],
     Raise (LibraryError (py "Exceeded 30 redirects."))).
Proof.
  apply (other_request_exception_propagates redirecting
           (Drug_data_source (py "drugcentral")) (py "Exceeded 30 redirects.")).
  reflexivity.
Defined.

(** X2.  A call of a public function that returns got a response to its
    request.  For every status other than 200, 201 to 299 included, it
    returns [None] after printing the status line and nothing else.  On
    status 200 it printed nothing: a download fetcher then returns a list,
    never [None], and a JSON fetcher returns what [response.json()] gave,
    which is [None] when the body is the JSON [null]. *)
Theorem returned_value_and_status (w : world) (f : fetcher) (v : value) :
  outcome (run w f) = Return v ->
  exists r,
    requests_request w (request_of f) = Fetched r /\
    (status_code r = 200 /\ printed_lines (trace (run w f)) = [] /\
     (if is_json_fetcher f
      then exists j, response_json w r = Return j /\ v = PyJson j
      else is_None v = false)
     \/
     status_code r <> 200 /\ v = PyNone /\
     exists numeral,
       printed_lines (trace (run w f))
       = [py "Status code returned a value of " ++ numeral] /\
       int_of_str numeral = Some (status_code r)).
Proof.
  intros Hv. destruct (requests_request w (request_of f)) as [r|e|e] eqn:H.
  - exists r. split; [done|].
    destruct (decide (status_code r = 200)) as [Hs|Hs].
    + left. split; [done|]. by eapply run_200.
    + right. rewrite (run_status _ _ _ H Hs) in Hv |- *.
      injection Hv as <-. do 2 (split; [done|]).
      exists (str_of_int (status_code r)). split; [done|apply int_of_str_of_int].
  - by rewrite (run_refused _ _ _ H) in Hv.
  - by rewrite (run_raised _ _ _ H) in Hv.
Qed.

Lemma returned_value_and_status_witness :
  exists r,
    requests_request (serving 200 [] [] []) (request_of (Drug_data_source (py "targetome")))
      = Fetched r /\
    (status_code r = 200 /\
     printed_lines (trace (run (serving 200 [] [] []) (Drug_data_source (py "targetome")))) = [] /\
     (exists j, response_json (serving 200 [] [] []) r = Return j /\ PyJson JNull = PyJson j)
     \/
     status_code r <> 200 /\ PyJson JNull = PyNone /\
     exists numeral,
       printed_lines (trace (run (serving 200 [] [] []) (Drug_data_source (py "targetome"))))
       = [py "Status code returned a value of " ++ numeral] /\
       int_of_str numeral = Some (status_code r)).
Proof.
  apply (returned_value_and_status (serving 200 [] [] [])
           (Drug_data_source (py "targetome")) (PyJson JNull)).
  reflexivity.
Defined.

(** X3.  No retry and no second endpoint: every public function sends its
    request once.  Only [sbgn_stids] sends another one, the request of
    [ehld_stids], and only after a 200 answer whose archive could be read. *)
Theorem requests_of_a_call (w : world) (f : fetcher) :
  requests_sent (trace (run w f))
  = request_of f ::
    match f, requests_request w (request_of f) with
    | Sbgn_stids, Fetched r =>
        if status_code r =? 200 then
          match tarfile_getnames w (content r) with
          | Return _ => [get ehld_url []]
          | Raise _ => []
          end
        else []
    | _, _ => []
    end.
Proof.
  assert (Hehld : requests_sent (trace (ehld_stids w)) = [get ehld_url []]).
  { pose proof (requests_sent_try_request w (get ehld_url [])) as Ht.
    unfold ehld_stids. cbv zeta.
    change (py "https://reactome.org/download/current/ehld/svgsummary.txt") with ehld_url.
    rewrite trace_bind, requests_sent_app, Ht.
    destruct (outcome (try_request w (get ehld_url []))) as [[r|]|e]; [|done..].
    cbn [bind local ret trace fst app].
    by destruct (status_code r =? 200). }
  destruct (requests_request w (request_of f)) as [r|e|e] eqn:H.
  - destruct (decide (status_code r = 200)) as [Hs|Hs].
    + destruct (is_json_fetcher f) eqn:Hj.
      * rewrite (run_json_200 _ _ _ Hj H Hs). by destruct f.
      * destruct f; try discriminate Hj; cbn [run request_of] in *;
          rewrite trace_returned.
        -- by rewrite (ehld_stids_200 _ _ H Hs).
        -- rewrite (sbgn_stids_200 _ _ H Hs), H, Hs.
           change (200 =? 200) with true. cbv iota. destruct (tarfile_getnames w (content r)); [|done].
           cbn [trace fst requests_sent]. by rewrite Hehld.
        -- by rewrite (gene_mappings_fetched_200 _ _ H Hs).
    + rewrite (run_status _ _ _ H Hs). apply Z.eqb_neq in Hs.
      destruct f; cbn [trace fst requests_sent request_of] in *; by rewrite ?H, ?Hs.
  - rewrite (run_refused _ _ _ H). destruct f; cbn [request_of] in *; by rewrite ?H.
  - rewrite (run_raised _ _ _ H). destruct f; cbn [request_of] in *; by rewrite ?H.
Qed.

(** X4.  On status 200 the seven JSON fetchers return [response.json()] as
    it is; when [response.json()] raises, so does the call.  Nothing is
    printed either way. *)
Theorem json_fetchers_pass_json_through (w : world) (f : fetcher) (r : response) :
  is_json_fetcher f = true ->
  requests_request w (request_of f) = Fetched r -> status_code r = 200 ->
  run w f
  = ([Sent (request_of f)],
     match response_json w r with
     | Return j => Return (PyJson j)
     | Raise e => Raise e
     end).
Proof. apply run_json_200. Qed.

Lemma json_fetchers_pass_json_through_witness :
  run (with_json (serving 200 (py "<html>") [] [])
         (fun _ => Raise (LibraryError (py "JSONDecodeError"))))
      (Pathway_factor_graph default_stId default_pattern)
  = ([Sent (post (pathway_factor_graph_base ++ py "177929") accept_json None)],
     Raise (LibraryError (py "JSONDecodeError"))).
Proof.
  apply (json_fetchers_pass_json_through
           (with_json (serving 200 (py "<html>") [] [])
              (fun _ => Raise (LibraryError (py "JSONDecodeError"))))
           (Pathway_factor_graph default_stId default_pattern)
           {| status_code := 200; text := py "<html>"; content := [] |});
    reflexivity.
Defined.

(** ** The listing fetchers, further *)

(** X5.  [sbgn_stids] returns exactly the member names of the archive, with
    [.sbgn] removed, that [ehld_stids] does not return: none of them is
    left out. *)
Theorem sbgn_stids_members (w : world) (ids : list str) :
  outcome (sbgn_stids w) = Return (Some ids) ->
  exists r names ehlds,
    requests_request w (get sbgn_url []) = Fetched r /\
    tarfile_getnames w (content r) = Return names /\
    outcome (ehld_stids w) = Return (Some ehlds) /\
    forall x,
      x ∈ ids <->
      (exists f, f ∈ names /\ x = replace f (py ".sbgn") []) /\ x ∉ ehlds.
Proof.
  intros H.
  apply sbgn_stids_Return in H as (r & names & ehlds & Hr & _ & Ht & He & ->).
  exists r, names, ehlds. do 3 (split; [done|]). intros x. split.
  - intros Hx. apply elem_of_elements, elem_of_difference in Hx as [Hx Hn].
    apply elem_of_list_to_set in Hx. unfold sbgn_names in Hx.
    apply list_elem_of_fmap in Hx as (f & -> & Hf).
    split; [by exists f|]. intros Hin. apply Hn. by apply elem_of_list_to_set.
  - intros [(f & Hf & ->) Hn].
    apply elem_of_elements, elem_of_difference. split.
    + apply elem_of_list_to_set. unfold sbgn_names.
      apply list_elem_of_fmap. by exists f.
    + intros Hin. apply Hn. by apply elem_of_list_to_set in Hin.
Qed.

Lemma sbgn_stids_members_witness :
  exists r names ehlds,
    requests_request (serving 200 ehld_summary sbgn_archive []) (get sbgn_url [])
      = Fetched r /\
    tarfile_getnames (serving 200 ehld_summary sbgn_archive []) (content r)
      = Return names /\
    outcome (ehld_stids (serving 200 ehld_summary sbgn_archive []))
      = Return (Some ehlds) /\
    forall x,
      x ∈ [py "R-HSA-3"] <->
      (exists f, f ∈ names /\ x = replace f (py ".sbgn") []) /\ x ∉ ehlds.
Proof.
  apply (sbgn_stids_members (serving 200 ehld_summary sbgn_archive [])).
  vm_compute. reflexivity.
Defined.

(** X6.  [sbgn_stids] does not handle a failure of the [ehld_stids] call it
    makes.  With the archive served and read: when the EHLD summary is
    answered with a status other than 200, [ehld_stids] prints the status and
    returns [None], and [sbgn_stids] raises [TypeError] on [set(None)]; when
    the EHLD request raises [ConnectionError], the fault of [ehld_stids] on
    its unassigned [response] comes out of [sbgn_stids]. *)
Theorem sbgn_stids_needs_ehld (w : world) (r : response) (names : list str) :
  requests_request w (get sbgn_url []) = Fetched r -> status_code r = 200 ->
  tarfile_getnames w (content r) = Return names ->
  (forall r',
     requests_request w (get ehld_url []) = Fetched r' -> status_code r' <> 200 ->
     sbgn_stids w
     = ([Sent (get sbgn_url []); Sent (get ehld_url []);
         Printed (py "Status code returned a value of " ++ str_of_int (status_code r'))],
        Raise TypeError)) /\
  (forall e,
     requests_request w (get ehld_url []) = ConnectionError e ->
     sbgn_stids w
     = ([Sent (get sbgn_url []); Sent (get ehld_url []); Printed e],
        Raise (UnboundLocalError "response"))).
Proof.
  intros H Hs Ht. rewrite (sbgn_stids_200 _ _ H Hs), Ht. split.
  - intros r' H' Hs'.
    pose proof (run_status w Ehld_stids r' H' Hs') as Hrun.
    cbn [run request_of] in Hrun. unfold returned in Hrun.
    destruct (ehld_stids w) as [t [[ids|]|e]]; cbn in Hrun; [done| |done].
    rewrite app_nil_r in Hrun. by injection Hrun as ->.
  - intros e H'.
    pose proof (run_refused w Ehld_stids e H') as Hrun.
    cbn [run request_of] in Hrun. unfold returned in Hrun.
    destruct (ehld_stids w) as [t [[ids|]|e']]; cbn in Hrun; [done..|].
    by injection Hrun as -> ->.
Qed.

Lemma sbgn_stids_needs_ehld_witness :
  sbgn_stids (ehld_unreachable sbgn_archive)
  = ([Sent (get sbgn_url []); Sent (get ehld_url []);
      Printed (py "Max retries exceeded")],
     Raise (UnboundLocalError "response")).
Proof.
  apply (proj2 (sbgn_stids_needs_ehld (ehld_unreachable sbgn_archive)
                  {| status_code := 200; text := []; content := [] |} sbgn_archive
                  eq_refl eq_refl eq_refl)).
  reflexivity.
Defined.

(** X7.  When the downloaded archive cannot be read as a tar file,
    [sbgn_stids] raises the reader's exception before [ehld_stids] is called:
    the EHLD summary is not requested. *)
Theorem sbgn_stids_bad_archive (w : world) (r : response) (e : exn) :
  requests_request w (get sbgn_url []) = Fetched r -> status_code r = 200 ->
  tarfile_getnames w (content r) = Raise e ->
  sbgn_stids w = ([Sent (get sbgn_url [])], Raise e).
Proof. intros H Hs Ht. by rewrite (sbgn_stids_200 _ _ H Hs), Ht. Qed.

Lemma sbgn_stids_bad_archive_witness :
  sbgn_stids (with_tar (serving 200 [] [] [])
                (fun _ => Raise (LibraryError (py "ReadError"))))
  = ([Sent (get sbgn_url [])], Raise (LibraryError (py "ReadError"))).
Proof.
  apply (sbgn_stids_bad_archive
           (with_tar (serving 200 [] [] []) (fun _ => Raise (LibraryError (py "ReadError"))))
           {| status_code := 200; text := []; content := [] |}); reflexivity.
Defined.

Lemma splitlines_scan_clean n : forall s cur,
  (length s <= n)%nat ->
  Forall (fun c => is_linebreak c = false) cur ->
  Forall (fun line => Forall (fun c => is_linebreak c = false) line)
    (splitlines_scan cur s).
Proof.
  induction n as [|n IH]; intros s cur Hn Hcur.
  - destruct s; [|simpl in Hn; lia]. simpl.
    destruct cur; [constructor|]. repeat constructor. by apply Forall_rev.
  - destruct s as [|c s].
    + simpl. destruct cur; [constructor|]. repeat constructor. by apply Forall_rev.
    + simpl in Hn. cbn [splitlines_scan].
      destruct (is_linebreak c) eqn:Ec.
      * constructor; [by apply Forall_rev|].
        destruct s as [|c' s]; [by constructor|].
        simpl in Hn.
        destruct (chr_eqb c CR && chr_eqb c' LF); apply IH; simpl; (lia || constructor).
      * apply IH; [lia|]. by constructor.
Qed.

(** X8.  The list returned by [ehld_stids] is made of lines of the response
    text, in the order of the text: every line that contains [R-] and no
    other; no returned string holds a line-break character. *)
Theorem ehld_stids_lines (w : world) (ids : list str) :
  outcome (ehld_stids w) = Return (Some ids) ->
  exists r,
    requests_request w (get ehld_url []) = Fetched r /\
    sublist ids (splitlines (text r)) /\
    (forall x, x ∈ ids <-> x ∈ splitlines (text r) /\ contains (py "R-") x = true) /\
    Forall (fun x => Forall (fun c => is_linebreak c = false) x) ids.
Proof.
  intros H. apply ehld_stids_Return in H as (r & Hr & _ & ->).
  exists r. split; [done|]. split; [apply sublist_filter|]. split.
  - intros x. rewrite list_elem_of_filter. tauto.
  - apply Forall_forall. intros x Hx. apply list_elem_of_filter in Hx as [_ Hx].
    revert x Hx. apply Forall_forall.
    by apply (splitlines_scan_clean (length (text r))).
Qed.

Lemma ehld_stids_lines_witness :
  exists r,
    requests_request (serving 200 ehld_summary [] []) (get ehld_url []) = Fetched r /\
    sublist [py "R-HSA-1"; py "R-HSA-2"] (splitlines (text r)) /\
    (forall x, x ∈ [py "R-HSA-1"; py "R-HSA-2"]
               <-> x ∈ splitlines (text r) /\ contains (py "R-") x = true) /\
    Forall (fun x => Forall (fun c => is_linebreak c = false) x)
      [py "R-HSA-1"; py "R-HSA-2"].
Proof.
  apply (ehld_stids_lines (serving 200 ehld_summary [] [])).
  reflexivity.
Defined.

(** ** Splitting and stripping *)

(** X9.  Splitting loses nothing: the fields of [s.split(sep)] joined again
    with [sep] are [s], for every non-empty separator, and there is at least
    one field. *)
Theorem split_join_round_trip (s sep : str) (l : list str) :
  split s sep = Return l ->
  join sep l = s /\ (1 <= length l)%nat.
Proof.
  unfold split. destruct sep as [|a p] eqn:E; [done|]. intros [= <-].
  split.
  - by rewrite (split_scan_join _ (length s)).
  - apply split_scan_nonempty.
Qed.

Lemma split_join_round_trip_witness :
  join [TAB] [py "Empty"; py "R-HSA-2" ++ [LF]] = gmt_line [py "Empty"; py "R-HSA-2"] /\
  (1 <= length [py "Empty"; py "R-HSA-2" ++ [LF]])%nat.
Proof.
  apply (split_join_round_trip (gmt_line [py "Empty"; py "R-HSA-2"]) [TAB]).
  reflexivity.
Defined.

Lemma lstrip_trimmed s :
  match s with [] => true | c :: _ => negb (isspace c) end = true -> lstrip s = s.
Proof. destruct s as [|c s]; [done|]. simpl. by destruct (isspace c). Qed.

Lemma strip_trimmed s : trimmed s = true -> strip s = s.
Proof.
  unfold trimmed, strip, rstrip. intros H. apply andb_true_iff in H as [H1 H2].
  rewrite (lstrip_trimmed s H1), (lstrip_trimmed (rev s) H2). apply rev_involutive.
Qed.

(** X10.  [strip] takes the white space off the two ends and nothing else:
    the string is white space, then its stripped form, then white space, and
    the stripped form has no white space at either end.  Stripping a string
    with no white space at either end changes nothing, so stripping twice is
    stripping once. *)
Theorem strip_only_trims_ends (s : str) :
  (exists pre post,
     s = pre ++ strip s ++ post /\
     Forall (fun c => isspace c = true) pre /\
     Forall (fun c => isspace c = true) post) /\
  trimmed (strip s) = true /\
  (trimmed s = true -> strip s = s) /\
  strip (strip s) = strip s.
Proof.
  split; [apply strip_split|]. split; [apply trimmed_strip|].
  split; [apply strip_trimmed|].
  apply strip_trimmed, trimmed_strip.
Qed.

Lemma strip_only_trims_ends_witness : strip (py "BCL2") = py "BCL2".
Proof.
  apply (proj1 (proj2 (proj2 (strip_only_trims_ends (py "BCL2"))))). reflexivity.
Defined.

Lemma elem_of_strip c s : c ∈ strip s -> c ∈ s.
Proof.
  intros H. destruct (strip_split s) as (pre & post & Hs & _).
  rewrite Hs. apply elem_of_app. right. apply elem_of_app. by left.
Qed.

(** X11.  No field of a record returned by [gene_mappings] holds a tab:
    the lines are cut at every tab, and stripping adds nothing. *)
Theorem gene_mappings_no_tab (w : world) (recs : list mapping) (d : mapping) :
  outcome (gene_mappings w) = Return (Some recs) -> d ∈ recs ->
  (TAB ∉ name d) /\ (TAB ∉ stId d) /\ Forall (fun g : str => TAB ∉ g) (genes d).
Proof.
  intros H Hd. apply gene_mappings_Return in H as (decoded & _ & Hr).
  apply records_spec in Hr.
  apply list_elem_of_lookup in Hd as [i Hi].
  destruct (Forall2_lookup_r _ _ _ _ _ Hr Hi) as (line & _ & Hspec).
  destruct Hspec as (f0 & f1 & gs & Hf & ->). cbn [name stId genes].
  pose proof (split_scan_char_free TAB line [] (not_elem_of_nil _)) as Hfree.
  fold (fields line) in Hfree. rewrite Hf in Hfree.
  apply Forall_cons in Hfree as [H0 Hfree]. apply Forall_cons in Hfree as [H1 Hgs].
  split; [by intros ?%elem_of_strip|]. split; [by intros ?%elem_of_strip|].
  apply Forall_fmap. eapply Forall_impl; [exact Hgs|].
  intros g Hg. cbn. by intros ?%elem_of_strip.
Qed.

Lemma gene_mappings_no_tab_witness :
  (TAB ∉ py "Empty") /\ (TAB ∉ py "R-HSA-2") /\ Forall (fun g : str => TAB ∉ g) [].
Proof.
  apply (gene_mappings_no_tab (serving 200 [] [] [gmt_two_pathways])
           [ {| name := py "Apoptosis"; stId := py "R-HSA-109581";
                genes := [py "BAX"; py "BCL2"] |};
             {| name := py "Empty"; stId := py "R-HSA-2"; genes := [] |} ]
           {| name := py "Empty"; stId := py "R-HSA-2"; genes := [] |}).
  - vm_compute. reflexivity.
  - right. left.
Defined.

(** ** Edge cases of [gene_mappings] and of the prefix rule *)

(** X12.  [gene_mappings] on a 200 answer: an archive that cannot be read
    raises the reader's exception; an archive with no member raises
    [IndexError]; a first member with no line gives the empty list; and one
    line of the first member that is not UTF-8 makes the call raise, whatever
    the other lines are: no partial list is returned. *)
Theorem gene_mappings_archive_edges (w : world) (r : response) :
  requests_request w (get gmt_url []) = Fetched r -> status_code r = 200 ->
  (forall e, zipfile_readlines w (content r) = Raise e ->
     gene_mappings w = ([Sent (get gmt_url [])], Raise e)) /\
  (zipfile_readlines w (content r) = Return [] ->
     gene_mappings w = ([Sent (get gmt_url [])], Raise IndexError)) /\
  (forall rest, zipfile_readlines w (content r) = Return ([] :: rest) ->
     gene_mappings w = ([Sent (get gmt_url [])], Return (Some []))) /\
  (forall lines rest e,
     zipfile_readlines w (content r) = Return (lines :: rest) ->
     rmap (decode_utf8 w) lines = Raise e ->
     gene_mappings w = ([Sent (get gmt_url [])], Raise e)).
Proof.
  intros H Hs. rewrite (gene_mappings_fetched_200 _ _ H Hs).
  unfold _read_ziplines, _yield_zip.
  split; [|split; [|split]].
  - by intros e ->.
  - by intros ->.
  - by intros rest ->.
  - intros lines rest e -> Hd. cbn [rbind index lookup list_lookup]. by rewrite Hd.
Qed.

Lemma gene_mappings_archive_edges_witness :
  gene_mappings (serving 200 [] [] [gmt_not_ascii])
  = ([Sent (get gmt_url [])], Raise (LibraryError (py "UnicodeDecodeError"))).
Proof.
  apply (proj2 (proj2 (proj2
           (gene_mappings_archive_edges (serving 200 [] [] [gmt_not_ascii])
              {| status_code := 200; text := []; content := [] |} eq_refl eq_refl)))
           (map encode_ascii gmt_not_ascii) []).
  - reflexivity.
  - vm_compute. reflexivity.
Defined.

Lemma replace_scan_sublist old s : forall skip,
  sublist (replace_scan old [] skip s) s.
Proof.
  induction s as [|c s IH]; intros skip; [constructor|].
  cbn [replace_scan]. destruct skip as [|k].
  - destruct (startswith old (c :: s)).
    + cbn [app]. apply sublist_cons, IH.
    + apply sublist_skip, IH.
  - apply sublist_cons, IH.
Qed.

(** X13.  The prefix rule only deletes: the identifier put in the URL is the
    given one with some characters left out, in the same order, so it is never
    longer.  An empty pattern deletes nothing, and an identifier equal to the
    pattern becomes empty (the request then goes to the bare endpoint). *)
Theorem strip_pattern_only_deletes (w : world) (stId pattern : str) :
  sublist (strip_pattern stId pattern) stId /\
  (length (strip_pattern stId pattern) <= length stId)%nat /\
  strip_pattern stId [] = stId /\
  (pattern <> [] ->
   strip_pattern pattern pattern = [] /\
   requests_sent (trace (pathway_fi w pattern pattern)) = [get pathway_fi_base accept_json]).
Proof.
  assert (Hsub : sublist (strip_pattern stId pattern) stId).
  { unfold strip_pattern. destruct (contains pattern stId); [|done].
    unfold replace. destruct pattern as [|a p].
    - change (nil ++ flat_map (fun c => [c]) stId) with (replace stId [] []).
      by rewrite replace_empty_empty.
    - apply replace_scan_sublist. }
  split; [done|]. split; [by apply sublist_length|].
  split.
  - unfold strip_pattern. rewrite contains_nil. apply replace_empty_empty.
  - intros Hne.
    assert (Hp : strip_pattern pattern pattern = []).
    { rewrite <- (app_nil_r pattern) at 1. apply strip_pattern_leading.
      destruct pattern; [done|]. done. }
    split; [done|].
    unfold pathway_fi. cbv zeta. rewrite requests_sent_json_fetcher, Hp.
    by rewrite app_nil_r.
Qed.

Lemma strip_pattern_only_deletes_witness :
  strip_pattern default_pattern default_pattern = [] /\
  requests_sent (trace (pathway_fi offline default_pattern default_pattern))
  = [get pathway_fi_base accept_json].
Proof.
  apply (proj2 (proj2 (proj2
           (strip_pattern_only_deletes offline default_stId default_pattern)))).
  discriminate.
Defined.

(** ** Well-formed downloads are read back *)

Lemma splitlines_scan_line nl l rest :
  nl = [LF] \/ nl = [CR; LF] ->
  Forall (fun c => is_linebreak c = false) l ->
  forall cur,
    splitlines_scan cur (l ++ nl ++ rest) = (rev cur ++ l) :: splitlines_scan [] rest.
Proof.
  intros Hnl Hl. induction Hl as [|c l Hc Hl IH]; intros cur.
  - rewrite app_nil_r. destruct Hnl as [-> | ->]; cbn [app splitlines_scan].
    + change (is_linebreak LF) with true. cbv iota. by destruct rest.
    + change (is_linebreak CR) with true. by cbv iota.
  - cbn [app splitlines_scan]. rewrite Hc, IH. simpl. by rewrite <- app_assoc.
Qed.

Lemma splitlines_unlines nl lines :
  nl = [LF] \/ nl = [CR; LF] ->
  Forall (fun l => Forall (fun c => is_linebreak c = false) l) lines ->
  splitlines (unlines nl lines) = lines.
Proof.
  intros Hnl Hall. unfold splitlines, unlines.
  induction Hall as [|l lines Hl _ IH]; [done|].
  cbn [flat_map]. rewrite <- app_assoc, splitlines_scan_line by done.
  by rewrite IH.
Qed.

(** X14.  A summary file of lines that end in LF, or all in CR LF, is read
    back line by line: on status 200 [ehld_stids] returns its lines that
    contain [R-], in the order of the file. *)
Theorem ehld_stids_reads_lines (w : world) (r : response) (nl : str) (lines : list str) :
  requests_request w (get ehld_url []) = Fetched r -> status_code r = 200 ->
  nl = [LF] \/ nl = [CR; LF] ->
  Forall (fun l => Forall (fun c => is_linebreak c = false) l) lines ->
  text r = unlines nl lines ->
  ehld_stids w
  = ([Sent (get ehld_url [])],
     Return (Some (filter (fun l => contains (py "R-") l = true) lines))).
Proof.
  intros H Hs Hnl Hall Ht.
  by rewrite (ehld_stids_200 _ _ H Hs), Ht, splitlines_unlines.
Qed.

Lemma ehld_stids_reads_lines_witness :
  ehld_stids (serving 200 (unlines [CR; LF] [py "stId"; py "R-HSA-1"; []; py "R-HSA-2"]) [] [])
  = ([Sent (get ehld_url [])], Return (Some [py "R-HSA-1"; py "R-HSA-2"])).
Proof.
  apply (ehld_stids_reads_lines
           (serving 200 (unlines [CR; LF] [py "stId"; py "R-HSA-1"; []; py "R-HSA-2"]) [] [])
           {| status_code := 200;
              text := unlines [CR; LF] [py "stId"; py "R-HSA-1"; []; py "R-HSA-2"];
              content := [] |}
           [CR; LF] [py "stId"; py "R-HSA-1"; []; py "R-HSA-2"]).
  - reflexivity.
  - reflexivity.
  - by right.
  - repeat constructor.
  - reflexivity.
Defined.

Lemma strip_app_space f c :
  trimmed f = true -> isspace c = true -> strip (f ++ [c]) = f.
Proof.
  unfold trimmed. intros H Hc. apply andb_true_iff in H as [H1 H2].
  unfold strip, rstrip. destruct f as [|a f].
  - simpl. by rewrite Hc.
  - rewrite (lstrip_trimmed ((a :: f) ++ [c])) by done.
    rewrite rev_app_distr. cbn [rev app lstrip]. rewrite Hc.
    change (rev f ++ [a]) with (rev (a :: f)).
    rewrite (lstrip_trimmed _ H2). apply rev_involutive.
Qed.

Lemma fields_gmt_line f fs :
  Forall plain_field (f :: fs) ->
  map strip (fields (gmt_line (f :: fs))) = f :: fs.
Proof.
  unfold fields, gmt_line. revert f. induction fs as [|g fs IH]; intros f Hall.
  - apply Forall_cons in Hall as [[Ht Hf] _]. cbn [join].
    rewrite split_scan_field by done. cbn [split_scan].
    rewrite startswith_head_absent; [|done|].
    + rewrite app_nil_r. cbn [map rev]. rewrite rev_involutive.
      by rewrite strip_app_space.
    + apply not_elem_of_cons. split; [done|apply not_elem_of_nil].
  - apply Forall_cons in Hall as [[Ht Hf] Hrest].
    change (join [TAB] (f :: g :: fs)) with (f ++ [TAB] ++ join [TAB] (g :: fs)).
    rewrite <- !app_assoc. rewrite split_scan_field by done.
    cbn [app split_scan startswith]. rewrite chr_eqb_refl. cbn [andb length Nat.sub].
    cbn [map]. rewrite app_nil_r, rev_involutive, (strip_trimmed f Ht).
    f_equal. by apply IH.
Qed.

Lemma record_of_line_of_mapping d :
  plain_mapping d -> record_of_row (fields (line_of_mapping d)) = Return d.
Proof.
  intros (Hn & Hs & Hg). unfold record_of_row, line_of_mapping.
  rewrite fields_gmt_line by (by do 2 (apply Forall_cons; split; [done|])).
  by destruct d.
Qed.

Lemma absent_forallb (t : ascii) (s : str) :
  forallb (fun c => negb (chr_eqb t c)) s = true -> t ∉ s.
Proof.
  induction s as [|c s IH]; [intros _; apply not_elem_of_nil|].
  simpl. intros H. apply andb_true_iff in H as [Hc Hs].
  apply not_elem_of_cons. split; [|by apply IH].
  intros ->. by rewrite chr_eqb_refl in Hc.
Qed.

(** X15.  A GMT file is read back: when the lines of the first member are
    the lines of some records, name, stId and genes separated by tabs and
    ended by LF, with fields that have no tab and no white space at their
    ends, [gene_mappings] returns these records. *)
Theorem gene_mappings_reads_gmt (w : world) (recs : list mapping) :
  first_member w (map line_of_mapping recs) ->
  Forall plain_mapping recs ->
  gene_mappings w = ([Sent (get gmt_url [])], Return (Some recs)).
Proof.
  intros Hm Hall. rewrite (gene_mappings_200 _ _ Hm).
  assert (Hr : rmap record_of_row (map fields (map line_of_mapping recs)) = Return recs).
  { clear Hm. induction Hall as [|d recs Hd _ IH]; [done|].
    cbn [map rmap]. rewrite record_of_line_of_mapping by done.
    cbn [rbind]. by rewrite IH. }
  by rewrite Hr.
Qed.

Lemma gene_mappings_reads_gmt_witness :
  gene_mappings
    (serving 200 [] []
       [map line_of_mapping
          [ {| name := py "Signaling by EGFR"; stId := py "R-HSA-177929";
               genes := [py "EGFR"; py "GRB2"] |};
            {| name := []; stId := py "R-HSA-2"; genes := [] |} ]])
  = ([Sent (get gmt_url [])],
     Return (Some [ {| name := py "Signaling by EGFR"; stId := py "R-HSA-177929";
                       genes := [py "EGFR"; py "GRB2"] |};
                    {| name := []; stId := py "R-HSA-2"; genes := [] |} ])).
Proof.
  apply gene_mappings_reads_gmt.
  - do 3 eexists. repeat split.
  - repeat first [ apply Forall_nil | apply Forall_cons; split | split ];
      first [ reflexivity | by apply absent_forallb ].
Defined.

Lemma sbgn_file_id id : DOT ∉ id -> replace (sbgn_file id) (py ".sbgn") [] = id.
Proof.
  unfold sbgn_file. change (replace ?s (py ".sbgn") []) with (replace_scan (py ".sbgn") [] 0 s).
  induction id as [|c id IH]; intros Hid.
  - cbn [app]. rewrite <- (app_nil_r (py ".sbgn")) at 2.
    by rewrite replace_scan_occurrence.
  - apply not_elem_of_cons in Hid as [Hc Hid]. cbn [app].
    rewrite replace_scan_other, IH; [done|done|].
    change (py ".sbgn") with (DOT :: py "sbgn"). cbn [startswith].
    destruct (chr_eqb DOT c) eqn:E; [|done].
    apply chr_eqb_true in E. by destruct Hc.
Qed.

(** X16.  An archive of files [<id>.sbgn], with no dot in the ids, is read
    back: when [ehld_stids] returns a list, [sbgn_stids] sends its two
    requests, prints nothing and returns, each once, the ids of the archive
    that [ehld_stids] did not return. *)
Theorem sbgn_stids_reads_archive (w : world) (r : response) (ids ehlds : list str) :
  requests_request w (get sbgn_url []) = Fetched r -> status_code r = 200 ->
  tarfile_getnames w (content r) = Return (map sbgn_file ids) ->
  Forall (fun id : str => DOT ∉ id) ids ->
  outcome (ehld_stids w) = Return (Some ehlds) ->
  exists res,
    sbgn_stids w
    = ([Sent (get sbgn_url []); Sent (get ehld_url [])], Return (Some res)) /\
    NoDup res /\
    forall x, x ∈ res <-> x ∈ ids /\ x ∉ ehlds.
Proof.
  intros H Hs Ht Hids He.
  assert (Hn : sbgn_names (map sbgn_file ids) = ids).
  { clear Ht. unfold sbgn_names. induction Hids as [|id ids Hid _ IH]; [done|].
    cbn [map]. rewrite sbgn_file_id by done. by rewrite IH. }
  eexists. split; [|split].
  - by rewrite (sbgn_stids_200 _ _ H Hs), Ht, He, (ehld_stids_quiet _ _ He), Hn.
  - apply NoDup_elements.
  - intros x. rewrite elem_of_elements, elem_of_difference, !elem_of_list_to_set. done.
Qed.

Lemma sbgn_stids_reads_archive_witness :
  exists res,
    sbgn_stids (serving 200 ehld_summary (map sbgn_file [py "R-HSA-1"; py "R-HSA-3"]) [])
    = ([Sent (get sbgn_url []); Sent (get ehld_url [])], Return (Some res)) /\
    NoDup res /\
    forall x, x ∈ res <-> x ∈ [py "R-HSA-1"; py "R-HSA-3"] /\ x ∉ [py "R-HSA-1"; py "R-HSA-2"].
Proof.
  apply (sbgn_stids_reads_archive
           (serving 200 ehld_summary (map sbgn_file [py "R-HSA-1"; py "R-HSA-3"]) [])
           {| status_code := 200; text := ehld_summary; content := [] |}).
  - reflexivity.
  - reflexivity.
  - reflexivity.
  - repeat first [ apply Forall_nil | apply Forall_cons; split ];
      first [ by apply absent_forallb | done ].
  - reflexivity.
Defined.
